(** * HelpTool collection store: a shallow embedding of [app/main.py]

    The program is a Flask application with two generic handlers,
    [module_list] (GET/POST on [/api/<module>]) and [module_item]
    (GET/PUT/DELETE on [/api/<module>/<int:item_id>]).  Each request loads
    the JSON file of the collection, acts on the loaded list and writes
    the whole list back.

    The embedding follows the source function by function:
    - JSON values as an inductive type, a Python [dict] as a finite map
      with string keys;
    - Python exceptions as an error monad [result];
    - the data directory and the logger as an explicit [world] that every
      handler takes and returns;
    - what the handlers read from their surroundings (the decoded request,
      the clock, whether the write to disk goes through) as inputs. *)

From Stdlib Require Import ZArith Floats.SpecFloat DecimalString Ascii Lia.
From stdpp Require Import base option list strings gmap.
From Equations Require Import Equations.

#[local] Set Warnings "-register-all,-level-tolerance".
#[local] Open Scope Z_scope.

(** ** JSON values, as [json.load] and [request.get_json] produce them *)

Inductive json :=
  | JNull                              (* None *)
  | JBool (b : bool)                   (* True, False *)
  | JInt (z : Z)                       (* int, unbounded *)
  | JFloat (f : spec_float)            (* float: IEEE 754 binary64 data *)
  | JStr (s : string)                  (* str *)
  | JArr (l : list json)               (* list *)
  | JObj (d : gmap string json).       (* dict with str keys *)

(** ** Python exceptions *)

Inductive exn :=
  | AttributeError (msg : string)
  | TypeError (msg : string)
  | IndexError (msg : string)
  | HTTPException (msg : string).      (* raised by Flask, e.g. BadRequest *)

(** [str(e)] *)
Definition exn_str (e : exn) : string :=
  match e with
  | AttributeError m | TypeError m | IndexError m | HTTPException m => m
  end.

Inductive result (A : Type) :=
  | Ok (a : A)
  | Raise (e : exn).
Arguments Ok {A} a.
Arguments Raise {A} e.

#[global] Instance result_ret : MRet result := λ A a, Ok a.
#[global] Instance result_bind : MBind result := λ A B f m,
  match m with
  | Ok a => f a
  | Raise e => Raise e
  end.

(** ** The Python operations the handlers use *)

Module Py.

(** [type(v).__name__] *)
Definition type_name (v : json) : string :=
  match v with
  | JNull => "NoneType"
  | JBool _ => "bool"
  | JInt _ => "int"
  | JFloat _ => "float"
  | JStr _ => "str"
  | JArr _ => "list"
  | JObj _ => "dict"
  end.

Definition no_attribute (v : json) (attr : string) : exn :=
  AttributeError ("'" +:+ type_name v +:+ "' object has no attribute '" +:+ attr +:+ "'").

(** [isinstance(v, int)], and the integer the instance stands for: [bool]
    is a subclass of [int], [True] is 1 and [False] is 0. [None] for a
    value that is not an [int] instance. *)
Definition int_value (v : json) : option Z :=
  match v with
  | JInt z => Some z
  | JBool b => Some (Z.b2z b)
  | _ => None
  end.

(** [f == z] for a float [f] and an int [z]: Python compares the two
    exactly, as numbers. *)
Definition float_eq_int (f : spec_float) (z : Z) : bool :=
  match f with
  | S754_zero _ => z =? 0
  | S754_finite s m e =>
      let n := if s then Z.neg m else Z.pos m in
      if 0 <=? e then n * 2 ^ e =? z else n =? z * 2 ^ (- e)
  | S754_infinity _ | S754_nan => false
  end.

(** [v == z] for an int [z]. *)
Definition eq_int (v : json) (z : Z) : bool :=
  match v with
  | JInt n => n =? z
  | JBool b => Z.b2z b =? z
  | JFloat f => float_eq_int f z
  | JNull | JStr _ | JArr _ | JObj _ => false
  end.

(** [d.get(k)] *)
Definition get (d : gmap string json) (k : string) : json :=
  default JNull (d !! k).

(** [d.setdefault(k, v)] *)
Definition setdefault (k : string) (v : json) (d : gmap string json)
  : gmap string json :=
  match d !! k with
  | Some _ => d
  | None => <[k := v]> d
  end.

(** The characters of a string, each as a one-character [str]. *)
Fixpoint chars (s : string) : list json :=
  match s with
  | EmptyString => []
  | String c s' => JStr (String c EmptyString) :: chars s'
  end.

(** The sequence [for x in v] runs through. *)
Definition iter (v : json) : result (list json) :=
  match v with
  | JArr l => Ok l
  | JObj d => Ok ((λ kv, JStr kv.1) <$> map_to_list d)
  | JStr s => Ok (chars s)
  | JNull | JBool _ | JInt _ | JFloat _ =>
      Raise (TypeError ("'" +:+ type_name v +:+ "' object is not iterable"))
  end.

(** [v.get(k)]: only a [dict] has the method. *)
Definition call_get (v : json) (k : string) : result json :=
  match v with
  | JObj d => Ok (get d k)
  | _ => Raise (no_attribute v "get")
  end.

(** [v[k] = x] for a [str] key [k]; the updated dict. *)
Definition setitem (v : json) (k : string) (x : json)
  : result (gmap string json) :=
  match v with
  | JObj d => Ok (<[k := x]> d)
  | JArr _ => Raise (TypeError "list indices must be integers or slices, not str")
  | _ => Raise (TypeError ("'" +:+ type_name v +:+
                           "' object does not support item assignment"))
  end.

(** [v.append(x)]; the extended list. *)
Definition append (v : json) (x : json) : result (list json) :=
  match v with
  | JArr l => Ok (l ++ [x])
  | _ => Raise (no_attribute v "append")
  end.

(** Indexing by position. The handlers index [items] only at a position
    found by enumerating it, which is a position of a list (lemma
    [find_index_list] below); on every other kind of value the three
    operations are left at a [TypeError]. *)
Definition not_a_list (v : json) : exn :=
  TypeError ("'" +:+ type_name v +:+ "' object is not a list").

(** [v[i]] for an index [i ≥ 0]. *)
Definition getitem (v : json) (i : nat) : result json :=
  match v with
  | JArr l =>
      match l !! i with
      | Some x => Ok x
      | None => Raise (IndexError "list index out of range")
      end
  | _ => Raise (not_a_list v)
  end.

(** [v.pop(i)] for an index [i ≥ 0]; the list that remains. *)
Definition pop (v : json) (i : nat) : result (list json) :=
  match v with
  | JArr l =>
      if decide (i < length l)%nat then Ok (delete i l)
      else Raise (IndexError "pop index out of range")
  | _ => Raise (not_a_list v)
  end.

(** [v[i] = x] for an index [i ≥ 0]; the updated list. *)
Definition setitem_index (v : json) (i : nat) (x : json) : result (list json) :=
  match v with
  | JArr l =>
      if decide (i < length l)%nat then Ok (<[i := x]> l)
      else Raise (IndexError "list assignment index out of range")
  | _ => Raise (not_a_list v)
  end.

End Py.

(** ** The data directory and the logger *)

(** What [./data/<filename>] holds: a JSON document, or something
    [json.load] fails on. A file that does not exist has no entry. *)
Inductive file :=
  | Content (v : json)
  | Unreadable.

Inductive log_entry :=
  | LoadError (filename : string)                  (* Fehler beim Laden von ... *)
  | SaveError (filename : string)                  (* Fehler beim Speichern von ... *)
  | CreateError (module : string) (e : exn)        (* Fehler beim Erstellen in ... *)
  | PutError (module : string) (item_id : Z) (e : exn). (* Fehler bei PUT ... *)

Record world := World {
  files : gmap string file;
  log : list log_entry
}.

Definition logger_error (entry : log_entry) (w : world) : world :=
  World (files w) (log w ++ [entry]).

Definition write_file (filename : string) (f : file) (w : world) : world :=
  World (<[filename := f]> (files w)) (log w).

(** How the write in [save_json] ends: it goes through; [open] fails and
    the file stays as it was; or [open] has truncated the file and
    [json.dump] fails before the document is complete. *)
Inductive save_outcome :=
  | SaveOk
  | SaveOpenFails
  | SaveWriteFails.

(** A broken-down time, as [time.localtime()] and [time.gmtime()] give it. *)
Record struct_time := StructTime {
  tm_year : nat;
  tm_mon : nat;
  tm_mday : nat;
  tm_hour : nat;
  tm_min : nat;
  tm_sec : nat
}.

(** The current instant, in the server's time zone and in UTC. *)
Record clock := Clock {
  localtime : struct_time;
  gmtime : struct_time
}.

(** What a handler meets outside the request while it runs. *)
Record env := Env {
  env_clock : clock;
  env_save : save_outcome
}.

(** [load_json(filename)] *)
Definition load_json (filename : string) (w : world) : json * world :=
  match files w !! filename with
  | Some (Content v) => (v, w)
  | Some Unreadable => (JArr [], logger_error (LoadError filename) w)
  | None => (JArr [], w)
  end.

(** [save_json(filename, data)] *)
Definition save_json (o : save_outcome) (filename : string) (data : json)
    (w : world) : bool * world :=
  match o with
  | SaveOk => (true, write_file filename (Content data) w)
  | SaveOpenFails => (false, logger_error (SaveError filename) w)
  | SaveWriteFails =>
      (false, logger_error (SaveError filename) (write_file filename Unreadable w))
  end.

(** ** Timestamps *)

Definition decimal (n : nat) : string := NilZero.string_of_uint (Nat.to_uint n).

(** [%m], [%d], [%H], [%M], [%S]: two digits *)
Definition two_digits (n : nat) : string :=
  if (n <? 10)%nat then "0" +:+ decimal n else decimal n.

(** [time.strftime('%Y-%m-%dT%H:%M:%S.000Z', t)] *)
Definition strftime_iso (t : struct_time) : string :=
  decimal (tm_year t) +:+ "-" +:+ two_digits (tm_mon t) +:+ "-" +:+
  two_digits (tm_mday t) +:+ "T" +:+ two_digits (tm_hour t) +:+ ":" +:+
  two_digits (tm_min t) +:+ ":" +:+ two_digits (tm_sec t) +:+ ".000Z".

(** [get_timestamp_iso()]: [time.strftime] without a time argument formats
    [time.localtime()]. *)
Definition get_timestamp_iso (c : clock) : string :=
  strftime_iso (localtime c).

(** ** Requests and responses *)

Inductive method := GET | HEAD | POST | PUT | DELETE.

#[global] Instance method_eq_dec : EqDecision method.
Proof. solve_decision. Defined.

(** What [request.get_json()] does: it returns the decoded value ([None] is
    [JNull]) or raises. *)
Inductive get_json_result :=
  | Returns (v : json)
  | Raises (e : exn).

Record request := Request {
  req_method : method;
  req_data : string;                 (* request.data, the raw body *)
  req_get_json : get_json_result     (* request.get_json() *)
}.

Record response := Response {
  resp_body : json;
  resp_status : Z
}.

(** [jsonify(v)] and [jsonify(v), status] *)
Definition jsonify (v : json) : response := Response v 200.
Definition jsonify_status (v : json) (status : Z) : response := Response v status.

(** [{'error': msg}] *)
Definition error_body (msg : string) : json := JObj {[ "error" := JStr msg ]}.

(** The application's handler for an exception that leaves a view. *)
Definition internal_error : response :=
  jsonify_status (error_body "Interner Serverfehler") 500.

Definition get_json (req : request) : result json :=
  match req_get_json req with
  | Returns v => Ok v
  | Raises e => Raise e
  end.

(** ** Identifier assignment *)

(** [[item.get('id', 0) for item in items if isinstance(item.get('id'), int)]].
    The list holds [int] instances only ([bool] values among them); each is
    kept as the integer it stands for, which is all that
    [next_id in existing_ids] looks at. *)
Fixpoint existing_ids (items : list json) : result (list Z) :=
  match items with
  | [] => Ok []
  | item :: rest =>
      v ← Py.call_get item "id";
      ids ← existing_ids rest;
      Ok (match Py.int_value v with
          | Some z => z :: ids
          | None => ids
          end)
  end.

(** [next_id in existing_ids] *)
Definition id_taken (existing : list Z) (next_id : Z) : bool :=
  existsb (Z.eqb next_id) existing.

(** The existing ids that the loop, standing at [next_id], can still run
    into: this count falls with every turn of the loop. *)
Definition ids_ahead (existing : list Z) (next_id : Z) : nat :=
  length (filter (λ z, (next_id ≤ z)%Z) existing).

Definition inspect {A} (x : A) : { y : A | x = y } := exist _ x eq_refl.

(** [while next_id in existing_ids: next_id += 1], entered at [next_id];
    the value of [next_id] when the loop is left. *)
Equations next_free_id (existing : list Z) (next_id : Z) : Z
  by wf (ids_ahead existing next_id) lt :=
  next_free_id existing next_id with inspect (id_taken existing next_id) := {
    | exist _ true _ => next_free_id existing (next_id + 1)
    | exist _ false _ => next_id }.
Next Obligation.
  (* the id the loop stands at is in the list and is not ahead of n + 1 *)
  clear next_free_id. rename e into Htaken.
  unfold id_taken in Htaken. unfold ids_ahead.
  induction existing as [|z l IH]; simpl in *; [done|].
  assert (length (filter (λ x, (next_id + 1 ≤ x)%Z) l) ≤
          length (filter (λ x, (next_id ≤ x)%Z) l))%nat as Hmono.
  { clear. induction l as [|y l IHl]; simpl; [done|].
    rewrite !filter_cons. repeat case_decide; simpl; lia. }
  rewrite !filter_cons.
  destruct (Z.eqb_spec next_id z) as [Heq|Hne]; simpl in Htaken.
  - repeat case_decide; simpl; lia.
  - specialize (IH Htaken). repeat case_decide; simpl; lia.
Qed.

(** ** Default fields *)

Definition tools_defaults (new_item : gmap string json) : gmap string json :=
  Py.setdefault "favorite" (JBool false)
    (Py.setdefault "tags" (JArr [])
      (Py.setdefault "autostart" (JBool false)
        (Py.setdefault "admin" (JBool false) new_item))).

Definition faq_defaults (new_item : gmap string json) : gmap string json :=
  Py.setdefault "attachments" (JArr [])
    (Py.setdefault "favorite" (JBool false)
      (Py.setdefault "tags" (JArr []) new_item)).

(** ** [module_list]: GET and POST on [/api/<module>] *)

(** The body of the [try] block. *)
Definition module_list_try (ev : env) (module : string) (items : json)
    (req : request) (w : world) : result (response * world) :=
  if decide (req_data req = "") then
    Ok (jsonify_status (error_body "Leerer Request-Body") 400, w)
  else
    new_item ← get_json req;
    match new_item with
    | JNull => Ok (jsonify_status (error_body "Ungültiges JSON") 400, w)
    | _ =>
        its ← Py.iter items;
        existing ← existing_ids its;
        let next_id := next_free_id existing 1 in
        new_item ← Py.setitem new_item "id" (JInt next_id);
        let new_item :=
          match new_item !! "created_at" with
          | None => <["created_at" := JStr (get_timestamp_iso (env_clock ev))]> new_item
          | Some _ => new_item
          end in
        let new_item :=
          if decide (module = "tools") then tools_defaults new_item else new_item in
        let new_item :=
          if decide (module = "faq") then faq_defaults new_item else new_item in
        items' ← Py.append items (JObj new_item);
        let w' := (save_json (env_save ev) (module +:+ ".json") (JArr items') w).2 in
        Ok (jsonify_status (JObj new_item) 201, w')
    end.

Definition module_list (ev : env) (module : string) (req : request)
    (w : world) : response * world :=
  let '(items, w) := load_json (module +:+ ".json") w in
  if decide (req_method req = GET) then (jsonify items, w)
  else
    match module_list_try ev module items req w with
    | Ok rw => rw
    | Raise e =>
        (jsonify_status (error_body ("Fehler beim Erstellen: " +:+ exn_str e)) 500,
         logger_error (CreateError module e) w)
    end.

(** ** [module_item]: GET, PUT and DELETE on [/api/<module>/<int:item_id>] *)

(** [next((i for i, it in enumerate(items) if it.get('id') == item_id), None)],
    with [i] the index of the head of [items]. *)
Fixpoint find_index (items : list json) (item_id : Z) (i : nat)
    : result (option nat) :=
  match items with
  | [] => Ok None
  | it :: rest =>
      v ← Py.call_get it "id";
      if Py.eq_int v item_id then Ok (Some i)
      else find_index rest item_id (S i)
  end.

(** The body of the [try] block (PUT). *)
Definition module_item_try (ev : env) (module : string) (item_id : Z)
    (items : json) (idx : nat) (req : request) (w : world)
    : result (response * world) :=
  if decide (req_data req = "") then
    Ok (jsonify_status (error_body "Leerer Request-Body") 400, w)
  else
    updated_item ← get_json req;
    match updated_item with
    | JNull => Ok (jsonify_status (error_body "Ungültiges JSON") 400, w)
    | _ =>
        updated_item ← Py.setitem updated_item "id" (JInt item_id);
        items' ← Py.setitem_index items idx (JObj updated_item);
        let w' := (save_json (env_save ev) (module +:+ ".json") (JArr items') w).2 in
        Ok (jsonify (JObj updated_item), w')
    end.

Definition module_item (ev : env) (module : string) (item_id : Z)
    (req : request) (w : world) : response * world :=
  let '(items, w) := load_json (module +:+ ".json") w in
  match its ← Py.iter items; find_index its item_id 0 with
  | Raise _ => (internal_error, w)
  | Ok None => (jsonify_status (error_body "Nicht gefunden") 404, w)
  | Ok (Some idx) =>
      if decide (req_method req = GET) then
        match Py.getitem items idx with
        | Ok it => (jsonify it, w)
        | Raise _ => (internal_error, w)
        end
      else if decide (req_method req = DELETE) then
        match Py.pop items idx with
        | Ok items' =>
            let w' := (save_json (env_save ev) (module +:+ ".json") (JArr items') w).2 in
            (jsonify (JObj {[ "success" := JBool true ]}), w')
        | Raise _ => (internal_error, w)
        end
      else
        match module_item_try ev module item_id items idx req w with
        | Ok rw => rw
        | Raise e =>
            (jsonify_status
               (error_body ("Fehler beim Aktualisieren: " +:+ exn_str e)) 500,
             logger_error (PutError module item_id e) w)
        end
  end.

(** ** The routes of single collections *)

(** [get_tools()] ... [get_telefonbuch_termine()]: each view calls
    [module_list] with the name of its collection; the request is the one
    Flask is handling. *)
Definition get_tools (ev : env) (req : request) (w : world) : response * world :=
  module_list ev "tools" req w.

Definition get_tickets (ev : env) (req : request) (w : world) : response * world :=
  module_list ev "tickets" req w.

Definition get_contacts (ev : env) (req : request) (w : world) : response * world :=
  module_list ev "contacts" req w.

Definition get_network (ev : env) (req : request) (w : world) : response * world :=
  module_list ev "network" req w.

Definition get_faq (ev : env) (req : request) (w : world) : response * world :=
  module_list ev "faq" req w.

Definition get_termine (ev : env) (req : request) (w : world) : response * world :=
  module_list ev "termine" req w.

Definition add_termin (ev : env) (req : request) (w : world) : response * world :=
  module_list ev "termine" req w.

Definition get_telefonbuch_termine (ev : env) (req : request) (w : world)
    : response * world :=
  get_termine ev req w.

(** [not_found(error)], the application's handler for a 404 that Flask
    raises. *)
Definition not_found : response :=
  jsonify_status (error_body "Endpoint nicht gefunden") 404.

(** ** Collections *)

(** [List(C)]: the body of the answer to [GET /api/<module>], which is the
    collection as [load_json] reads it from [filename]. *)
Definition stored (filename : string) (w : world) : json :=
  (load_json filename w).1.

(** The file of a collection *)
Definition file_of (module : string) : string := module +:+ ".json".

(** A list of records, as a JSON array of objects *)
Definition records (recs : list (gmap string json)) : json :=
  JArr (JObj <$> recs).

(** * The vocabulary of the properties *)

(** The integer a record's [id] stands for, if it is an [int] instance *)
Definition int_id (d : gmap string json) : option Z :=
  Py.int_value (Py.get d "id").

(** [d.get('id') == item_id] *)
Definition has_id (item_id : Z) (d : gmap string json) : Prop :=
  Py.eq_int (Py.get d "id") item_id = true.

#[global] Instance has_id_dec item_id d : Decision (has_id item_id d).
Proof. unfold has_id. apply _. Defined.

(** Some record of [recs] has the id [item_id]. *)
Definition id_present (item_id : Z) (recs : list (gmap string json)) : Prop :=
  ∃ d, d ∈ recs ∧ has_id item_id d.

(** Some record of [recs] has an [int] instance standing for [n] as its
    [id]. *)
Definition has_int_id (recs : list (gmap string json)) (n : Z) : Prop :=
  ∃ d, d ∈ recs ∧ int_id d = Some n.

(** [ids_are recs ids]: every record has a JSON integer as its [id], and
    [ids] lists them in the order of the records. *)
Definition ids_are (recs : list (gmap string json)) (ids : list Z) : Prop :=
  Forall2 (λ d z, d !! "id" = Some (JInt z)) recs ids.

(** The ids of the records are JSON integers, positive and pairwise
    different. *)
Definition unique_positive_ids (recs : list (gmap string json)) : Prop :=
  ∃ ids, ids_are recs ids ∧ Forall (λ z, 1 ≤ z) ids ∧ NoDup ids.

(** A collection is a list of records with unique positive integer ids. *)
Definition collection_ok (v : json) : Prop :=
  ∃ recs, v = records recs ∧ unique_positive_ids recs.

(** The record that [module_list] builds from the decoded body [body] when
    the collection holds [recs]. *)
Definition new_record (ev : env) (module : string)
    (recs : list (gmap string json)) (body : gmap string json)
    : gmap string json :=
  let d := <["id" := JInt (next_free_id (omap int_id recs) 1)]> body in
  let d := match d !! "created_at" with
           | None => <["created_at" := JStr (get_timestamp_iso (env_clock ev))]> d
           | Some _ => d
           end in
  let d := if decide (module = "tools") then tools_defaults d else d in
  if decide (module = "faq") then faq_defaults d else d.

Definition empty_body_response : response :=
  jsonify_status (error_body "Leerer Request-Body") 400.
Definition invalid_json_response : response :=
  jsonify_status (error_body "Ungültiges JSON") 400.
Definition not_found_response : response :=
  jsonify_status (error_body "Nicht gefunden") 404.
Definition success_response : response :=
  jsonify (JObj {[ "success" := JBool true ]}).

(** [Create(C, body)]: a POST whose body decodes to the object [body]. *)
Definition is_create (req : request) (body : gmap string json) : Prop :=
  req_method req = POST ∧ req_data req ≠ "" ∧
  req_get_json req = Returns (JObj body).

(** [Replace(C, id, body)]: a PUT whose body decodes to the object [body]. *)
Definition is_replace (req : request) (body : gmap string json) : Prop :=
  req_method req = PUT ∧ req_data req ≠ "" ∧
  req_get_json req = Returns (JObj body).

(** The request has no body. *)
Definition no_body (req : request) : Prop := req_data req = "".

(** The body does not decode to a JSON value: [request.get_json()] returns
    [None] or raises. *)
Definition undecodable (req : request) : Prop :=
  req_get_json req = Returns JNull ∨ ∃ e, req_get_json req = Raises e.

(** The claim as the specification words it: every create and every replace
    request with an empty or undecodable body is answered 400 and changes
    no file. *)
Definition C3_as_stated : Prop :=
  ∀ ev module item_id req w recs,
    stored (file_of module) w = records recs →
    no_body req ∨ undecodable req →
    (req_method req = POST →
     resp_status (module_list ev module req w).1 = 400 ∧
     files (module_list ev module req w).2 = files w) ∧
    (req_method req = PUT →
     resp_status (module_item ev module item_id req w).1 = 400 ∧
     files (module_item ev module item_id req w).2 = files w).

(** A decimal digit *)
Definition is_digit (c : Ascii.ascii) : bool :=
  (48 <=? Ascii.nat_of_ascii c)%nat && (Ascii.nat_of_ascii c <=? 57)%nat.

(** [has_shape pattern s]: [s] has the length of [pattern], a digit where
    [pattern] has the letter d and the character of [pattern] everywhere
    else. *)
Fixpoint has_shape (pattern s : string) : bool :=
  match pattern, s with
  | EmptyString, EmptyString => true
  | String p pattern', String c s' =>
      (if Ascii.eqb p "d"%char then is_digit c else Ascii.eqb p c) &&
      has_shape pattern' s'
  | _, _ => false
  end.

(** The fields of a broken-down time are those of a date with a four-digit
    year. *)
Definition four_digit_year (t : struct_time) : Prop :=
  1000 ≤ Z.of_nat (tm_year t) ≤ 9999 ∧
  (1 ≤ tm_mon t ≤ 12)%nat ∧ (1 ≤ tm_mday t ≤ 31)%nat ∧
  (tm_hour t ≤ 23)%nat ∧ (tm_min t ≤ 59)%nat ∧ (tm_sec t ≤ 61)%nat.

(** One request to the application, with what its handler meets while it
    runs. *)
Inductive call :=
  | ListCall (ev : env) (module : string) (req : request)
  | ItemCall (ev : env) (module : string) (item_id : Z) (req : request).

Definition handle (c : call) (w : world) : response * world :=
  match c with
  | ListCall ev module req => module_list ev module req w
  | ItemCall ev module item_id req => module_item ev module item_id req w
  end.

(** The data directory and the log after the requests [calls], handled one
    after the other. *)
Definition run (calls : list call) (w : world) : world :=
  foldl (λ w c, (handle c w).2) w calls.

(** ** Concrete inputs *)

Module Examples.

(** A server one hour ahead of UTC, at 12:00:00 UTC on 2026-01-05 *)
Definition clock_plus1 : clock :=
  Clock (StructTime 2026 1 5 13 0 0) (StructTime 2026 1 5 12 0 0).

Definition ev_ok : env := Env clock_plus1 SaveOk.
Definition ev_disk_full : env := Env clock_plus1 SaveWriteFails.

Definition no_files : world := World ∅ [].

Definition post (data : string) (body : gmap string json) : request :=
  Request POST data (Returns (JObj body)).
Definition put (data : string) (body : gmap string json) : request :=
  Request PUT data (Returns (JObj body)).
Definition delete_request : request := Request DELETE "" (Returns JNull).
Definition get_request : request := Request GET "" (Returns JNull).

(** [{"id": 5, "name": "old"}] *)
Definition tool5 : gmap string json :=
  {[ "id" := JInt 5; "name" := JStr "old" ]}.

(** A data directory with [tools.json] holding [tool5] only *)
Definition one_tool : world :=
  World {[ "tools.json" := Content (records [tool5]) ]} [].

End Examples.

(** * Properties *)

(** ** Loading and saving *)

Lemma load_json_files filename w : files (load_json filename w).2 = files w.
Proof. unfold load_json. by repeat case_match. Qed.

Lemma stored_load filename w :
  stored filename (load_json filename w).2 = stored filename w.
Proof. unfold stored, load_json. repeat case_match; simplify_eq/=; try done;
  by rewrite ?H. Qed.

Lemma stored_files filename w w' :
  files w' = files w → stored filename w' = stored filename w.
Proof. unfold stored, load_json. intros ->. by repeat case_match. Qed.

Lemma stored_save_ok filename data w :
  stored filename (save_json SaveOk filename data w).2 = data.
Proof. unfold stored, load_json. simpl. by rewrite lookup_insert_eq. Qed.

Lemma stored_save_other o filename filename' data w :
  filename ≠ filename' →
  stored filename' (save_json o filename data w).2 = stored filename' w.
Proof.
  intros Hne. unfold stored, load_json.
  destruct o; simpl; rewrite ?lookup_insert_ne; try done; by repeat case_match.
Qed.

(** A write that fails leaves the collection as it was or leaves a file
    that loads as the empty list. *)
Lemma stored_save_fails o filename data w :
  o ≠ SaveOk →
  stored filename (save_json o filename data w).2 = stored filename w ∨
  stored filename (save_json o filename data w).2 = JArr [].
Proof.
  intros Ho. destruct o; [done| |].
  - left. by apply stored_files.
  - right. unfold stored, load_json. simpl. by rewrite lookup_insert_eq.
Qed.

(** ** The loop of the identifier assignment *)

Lemma id_taken_In existing n : id_taken existing n = true ↔ n ∈ existing.
Proof.
  unfold id_taken. rewrite existsb_exists. split.
  - intros (z & Hin & Heq). apply Z.eqb_eq in Heq. subst.
    by apply list_elem_of_In.
  - intros Hin. exists n. split; [by apply list_elem_of_In | apply Z.eqb_refl].
Qed.

(** The loop ends at the first integer from [next_id] on that is not in
    the list. *)
Lemma next_free_id_spec existing n :
  n ≤ next_free_id existing n ∧
  next_free_id existing n ∉ existing ∧
  ∀ m, n ≤ m < next_free_id existing n → m ∈ existing.
Proof.
  funelim (next_free_id existing n); clear Heqcall.
  - destruct H as (Hle & Hfree & Hbelow). split_and!; [lia | done |].
    intros m Hm. destruct (decide (m = next_id)) as [->|Hne].
    + by apply id_taken_In.
    + apply Hbelow. lia.
  - split_and!; [lia | | intros m Hm; lia].
    intros Hin. apply id_taken_In in Hin. congruence.
Qed.

(** ** Collections that are lists of records *)

Lemma iter_records recs : Py.iter (records recs) = Ok (JObj <$> recs).
Proof. done. Qed.

Lemma existing_ids_records recs :
  existing_ids (JObj <$> recs) = Ok (omap int_id recs).
Proof.
  induction recs as [|d recs IH]; [done|].
  cbn [fmap list_fmap existing_ids Py.call_get mbind result_bind].
  change (list_fmap _ _ JObj recs) with (JObj <$> recs). rewrite IH.
  cbn [omap list_omap]. unfold int_id at 2.
  change (list_omap _ _ int_id recs) with (omap int_id recs).
  by destruct (Py.int_value (Py.get d "id")).
Qed.

Lemma find_index_records recs item_id i :
  find_index (JObj <$> recs) item_id i =
  Ok ((λ p, (i + p.1)%nat) <$> list_find (has_id item_id) recs).
Proof.
  revert i. induction recs as [|d recs IH]; intros i; [done|].
  cbn [fmap list_fmap find_index Py.call_get mbind result_bind list_find].
  change (list_fmap _ _ JObj recs) with (JObj <$> recs).
  unfold has_id at 1. case_decide as Hd.
  - rewrite Hd. simpl. do 2 f_equal. lia.
  - apply not_true_is_false in Hd. rewrite Hd, IH.
    destruct (list_find (has_id item_id) recs) as [[k x]|]; simpl; [|done].
    do 2 f_equal. lia.
Qed.

(** An index is only ever found in a list, and lies within it. *)
Lemma find_index_bound its item_id i idx :
  find_index its item_id i = Ok (Some idx) →
  (i ≤ idx < i + length its)%nat.
Proof.
  revert i. induction its as [|it its IH]; intros i; simpl; [done|].
  destruct (Py.call_get it "id") as [v|]; simpl; [|done].
  destruct (Py.eq_int v item_id).
  - intros [= <-]. lia.
  - intros H%IH. lia.
Qed.

Lemma find_index_strings (l : list string) item_id i :
  l = [] ∨ ∃ e, find_index (JStr <$> l) item_id i = Raise e.
Proof. destruct l; [by left | right]. by eexists. Qed.

Lemma chars_strings s : ∃ l, Py.chars s = JStr <$> l.
Proof.
  induction s as [|c s [l Hl]]; [by exists [] |].
  exists (String c EmptyString :: l). simpl. by rewrite Hl.
Qed.

Lemma find_index_list items its item_id idx :
  Py.iter items = Ok its →
  find_index its item_id 0 = Ok (Some idx) →
  items = JArr its ∧ (idx < length its)%nat.
Proof.
  intros Hit Hfind. pose proof (find_index_bound _ _ _ _ Hfind) as Hb.
  destruct items; simplify_eq/=; [| by split; [|lia] |].
  - destruct (chars_strings s) as [l Hl]. rewrite Hl in Hfind.
    destruct (find_index_strings l item_id 0%nat) as [->|[e He]];
      simplify_eq/=; congruence.
  - change ((λ kv : string * json, JStr kv.1) <$> map_to_list d)
      with ((JStr ∘ fst) <$> map_to_list d) in Hfind.
    rewrite (list_fmap_compose fst JStr) in Hfind.
    destruct (find_index_strings (fst <$> map_to_list d) item_id 0%nat)
      as [Hnil|[e He]]; [|congruence].
    rewrite Hnil in Hfind. done.
Qed.

(** ** What the handlers do on a collection of records *)

Section handlers.
Context (ev : env) (module : string) (req : request) (w : world).

Lemma load_json_stored :
  load_json (module +:+ ".json") w =
  (stored (file_of module) w, (load_json (file_of module) w).2).
Proof. unfold stored, file_of. by destruct (load_json _ w). Qed.

Lemma module_list_get :
  req_method req = GET →
  module_list ev module req w =
  (jsonify (stored (file_of module) w), (load_json (file_of module) w).2).
Proof.
  intros Hm. unfold module_list. rewrite load_json_stored.
  by rewrite decide_True.
Qed.

Lemma module_list_empty_body :
  req_method req ≠ GET → req_data req = "" →
  module_list ev module req w =
  (empty_body_response, (load_json (file_of module) w).2).
Proof.
  intros Hm Hdata. unfold module_list. rewrite load_json_stored.
  rewrite decide_False by done. unfold module_list_try.
  by rewrite decide_True.
Qed.

Lemma module_list_none :
  req_method req ≠ GET → req_data req ≠ "" →
  req_get_json req = Returns JNull →
  module_list ev module req w =
  (invalid_json_response, (load_json (file_of module) w).2).
Proof.
  intros Hm Hdata Hjson. unfold module_list. rewrite load_json_stored.
  rewrite decide_False by done. unfold module_list_try, get_json.
  rewrite decide_False by done. by rewrite Hjson.
Qed.

Lemma module_list_create recs body :
  stored (file_of module) w = records recs →
  req_method req ≠ GET → req_data req ≠ "" →
  req_get_json req = Returns (JObj body) →
  module_list ev module req w =
  (jsonify_status (JObj (new_record ev module recs body)) 201,
   (save_json (env_save ev) (file_of module)
      (records (recs ++ [new_record ev module recs body]))
      (load_json (file_of module) w).2).2).
Proof.
  intros Hst Hm Hdata Hjson. unfold module_list. rewrite load_json_stored, Hst.
  rewrite decide_False by done. unfold module_list_try, get_json.
  rewrite decide_False by done. rewrite Hjson.
  cbn [mbind result_bind]. rewrite iter_records.
  cbn [mbind result_bind]. rewrite existing_ids_records.
  cbn [mbind result_bind Py.setitem Py.append records].
  unfold new_record, records, file_of.
  by rewrite fmap_app.
Qed.

Lemma module_item_absent item_id recs :
  stored (file_of module) w = records recs →
  list_find (has_id item_id) recs = None →
  module_item ev module item_id req w =
  (not_found_response, (load_json (file_of module) w).2).
Proof.
  intros Hst Hfind. unfold module_item. rewrite load_json_stored, Hst.
  rewrite iter_records. cbn [mbind result_bind].
  by rewrite find_index_records, Hfind.
Qed.

Lemma module_item_get item_id recs idx d :
  stored (file_of module) w = records recs →
  list_find (has_id item_id) recs = Some (idx, d) →
  req_method req = GET →
  module_item ev module item_id req w =
  (jsonify (JObj d), (load_json (file_of module) w).2).
Proof.
  intros Hst Hfind Hm. unfold module_item. rewrite load_json_stored, Hst.
  rewrite iter_records. cbn [mbind result_bind].
  rewrite find_index_records, Hfind. cbn [fmap option_fmap option_map fst Nat.add].
  rewrite decide_True by done.
  apply list_find_Some in Hfind as (Hlookup & _).
  unfold records, Py.getitem. by rewrite list_lookup_fmap, Hlookup.
Qed.

Lemma module_item_delete item_id recs idx d :
  stored (file_of module) w = records recs →
  list_find (has_id item_id) recs = Some (idx, d) →
  req_method req = DELETE →
  module_item ev module item_id req w =
  (success_response,
   (save_json (env_save ev) (file_of module) (records (delete idx recs))
      (load_json (file_of module) w).2).2).
Proof.
  intros Hst Hfind Hm. unfold module_item. rewrite load_json_stored, Hst.
  rewrite iter_records. cbn [mbind result_bind].
  rewrite find_index_records, Hfind. cbn [fmap option_fmap option_map fst Nat.add].
  rewrite decide_False by (rewrite Hm; done).
  rewrite decide_True by done.
  apply list_find_Some in Hfind as (Hlookup%lookup_lt_Some & _).
  unfold records, Py.pop. rewrite length_fmap, decide_True by done.
  by rewrite list_fmap_delete.
Qed.

Lemma module_item_put_dispatch item_id recs idx d :
  stored (file_of module) w = records recs →
  list_find (has_id item_id) recs = Some (idx, d) →
  req_method req ≠ GET → req_method req ≠ DELETE →
  module_item ev module item_id req w =
  match module_item_try ev module item_id (records recs) idx req
          (load_json (file_of module) w).2 with
  | Ok rw => rw
  | Raise e =>
      (jsonify_status
         (error_body ("Fehler beim Aktualisieren: " +:+ exn_str e)) 500,
       logger_error (PutError module item_id e) (load_json (file_of module) w).2)
  end.
Proof.
  intros Hst Hfind Hm1 Hm2. unfold module_item. rewrite load_json_stored, Hst.
  rewrite iter_records. cbn [mbind result_bind].
  rewrite find_index_records, Hfind. cbn [fmap option_fmap option_map fst Nat.add].
  by rewrite !decide_False by done.
Qed.

Lemma module_item_empty_body item_id recs idx d :
  stored (file_of module) w = records recs →
  list_find (has_id item_id) recs = Some (idx, d) →
  req_method req ≠ GET → req_method req ≠ DELETE →
  req_data req = "" →
  module_item ev module item_id req w =
  (empty_body_response, (load_json (file_of module) w).2).
Proof.
  intros Hst Hfind Hm1 Hm2 Hdata.
  rewrite (module_item_put_dispatch _ _ _ _ Hst Hfind Hm1 Hm2).
  unfold module_item_try. by rewrite decide_True.
Qed.

Lemma module_item_none item_id recs idx d :
  stored (file_of module) w = records recs →
  list_find (has_id item_id) recs = Some (idx, d) →
  req_method req ≠ GET → req_method req ≠ DELETE →
  req_data req ≠ "" → req_get_json req = Returns JNull →
  module_item ev module item_id req w =
  (invalid_json_response, (load_json (file_of module) w).2).
Proof.
  intros Hst Hfind Hm1 Hm2 Hdata Hjson.
  rewrite (module_item_put_dispatch _ _ _ _ Hst Hfind Hm1 Hm2).
  unfold module_item_try, get_json. rewrite decide_False by done.
  by rewrite Hjson.
Qed.

Lemma module_item_replace item_id recs idx d body :
  stored (file_of module) w = records recs →
  list_find (has_id item_id) recs = Some (idx, d) →
  req_method req ≠ GET → req_method req ≠ DELETE →
  req_data req ≠ "" → req_get_json req = Returns (JObj body) →
  module_item ev module item_id req w =
  (jsonify (JObj (<["id" := JInt item_id]> body)),
   (save_json (env_save ev) (file_of module)
      (records (<[idx := <["id" := JInt item_id]> body]> recs))
      (load_json (file_of module) w).2).2).
Proof.
  intros Hst Hfind Hm1 Hm2 Hdata Hjson.
  rewrite (module_item_put_dispatch _ _ _ _ Hst Hfind Hm1 Hm2).
  unfold module_item_try, get_json. rewrite decide_False by done.
  rewrite Hjson. cbn [mbind result_bind Py.setitem].
  apply list_find_Some in Hfind as (Hlookup%lookup_lt_Some & _).
  unfold records, Py.setitem_index. rewrite length_fmap, decide_True by done.
  cbn [mbind result_bind]. by rewrite list_fmap_insert.
Qed.

End handlers.

(** ** Default fields *)

Lemma setdefault_lookup k v d :
  Py.setdefault k v d !! k = Some (default v (d !! k)).
Proof.
  unfold Py.setdefault. destruct (d !! k) eqn:Hk; simpl; [done|].
  by rewrite lookup_insert_eq.
Qed.

Lemma setdefault_lookup_ne k k' v d :
  k ≠ k' → Py.setdefault k v d !! k' = d !! k'.
Proof.
  intros Hne. unfold Py.setdefault. destruct (d !! k); [done|].
  by rewrite lookup_insert_ne.
Qed.

Lemma tools_defaults_other d k :
  k ≠ "admin" → k ≠ "autostart" → k ≠ "tags" → k ≠ "favorite" →
  tools_defaults d !! k = d !! k.
Proof.
  intros. unfold tools_defaults. by rewrite !setdefault_lookup_ne.
Qed.

Lemma faq_defaults_other d k :
  k ≠ "tags" → k ≠ "favorite" → k ≠ "attachments" →
  faq_defaults d !! k = d !! k.
Proof.
  intros. unfold faq_defaults. by rewrite !setdefault_lookup_ne.
Qed.

(** The three steps after the assignment of [id] leave every key alone
    that is not one of theirs. *)
Lemma new_record_other ev module recs body k :
  k ≠ "id" → k ≠ "created_at" → k ≠ "admin" → k ≠ "autostart" →
  k ≠ "tags" → k ≠ "favorite" → k ≠ "attachments" →
  new_record ev module recs body !! k = body !! k.
Proof.
  intros. unfold new_record.
  repeat case_decide; rewrite ?faq_defaults_other, ?tools_defaults_other by done;
    case_match; rewrite ?lookup_insert_ne by done; done.
Qed.

Lemma new_record_id ev module recs body :
  new_record ev module recs body !! "id" =
  Some (JInt (next_free_id (omap int_id recs) 1)).
Proof.
  unfold new_record.
  repeat case_decide; rewrite ?faq_defaults_other, ?tools_defaults_other by done;
    case_match; rewrite ?lookup_insert_ne by done; by rewrite lookup_insert_eq.
Qed.

(** ** Records with integer ids *)

Lemma has_id_int d z n : d !! "id" = Some (JInt z) → has_id n d ↔ z = n.
Proof.
  intros Hd. unfold has_id, Py.get. rewrite Hd. simpl. apply Z.eqb_eq.
Qed.

Lemma ids_are_omap recs ids : ids_are recs ids → omap int_id recs = ids.
Proof.
  induction 1 as [|d z recs ids Hd _ IH]; [done|].
  cbn [omap list_omap]. unfold int_id at 1, Py.get. rewrite Hd. simpl.
  f_equal. apply IH.
Qed.

Lemma ids_are_find recs ids n :
  ids_are recs ids →
  match list_find (has_id n) recs with
  | Some (i, d) =>
      d !! "id" = Some (JInt n) ∧ ids !! i = Some n ∧
      ∀ j, (j < i)%nat → ids !! j ≠ Some n
  | None => n ∉ ids
  end.
Proof.
  intros Hids. destruct (list_find _ recs) as [[i d]|] eqn:Hfind.
  - apply list_find_Some in Hfind as (Hi & Hd & Hfirst).
    destruct (Forall2_lookup_l _ _ _ _ _ Hids Hi) as (z & Hz & Hdz).
    apply (has_id_int _ _ n) in Hdz as Hzn. apply Hzn in Hd as ->.
    split_and!; [done..|]. intros j Hj Hjn.
    destruct (Forall2_lookup_r _ _ _ _ _ Hids Hjn) as (d' & Hd' & Hd'n).
    apply (Hfirst _ _ Hd' Hj). by apply (has_id_int _ n n).
  - intros Hin. apply list_elem_of_lookup in Hin as [i Hi].
    destruct (Forall2_lookup_r _ _ _ _ _ Hids Hi) as (d & Hd & Hdn).
    eapply list_find_None in Hfind. rewrite Forall_forall in Hfind.
    apply (Hfind d); [by eapply list_elem_of_lookup_2|].
    by apply (has_id_int _ n n).
Qed.

Lemma ids_are_snoc recs ids d z :
  ids_are recs ids → d !! "id" = Some (JInt z) →
  ids_are (recs ++ [d]) (ids ++ [z]).
Proof. intros. apply Forall2_app; [done|]. by repeat constructor. Qed.

Lemma ids_are_delete recs ids i :
  ids_are recs ids → ids_are (delete i recs) (delete i ids).
Proof. apply Forall2_delete. Qed.

Lemma ids_are_insert recs ids i d z :
  ids_are recs ids → ids !! i = Some z → d !! "id" = Some (JInt z) →
  ids_are (<[i := d]> recs) ids.
Proof.
  intros Hids Hi Hd. rewrite <- (list_insert_id ids i z Hi).
  by apply Forall2_insert.
Qed.

(** ** Single steps on a collection with integer ids *)

Lemma has_int_id_omap recs n : has_int_id recs n ↔ n ∈ omap int_id recs.
Proof. unfold has_int_id. by rewrite list_elem_of_omap. Qed.

(** One create on a collection of records with integer ids, the write
    going through. *)
Lemma create_step ev module req w recs ids body :
  stored (file_of module) w = records recs → ids_are recs ids →
  is_create req body → env_save ev = SaveOk →
  ∃ rec,
    (module_list ev module req w).1 = jsonify_status (JObj rec) 201 ∧
    rec !! "id" = Some (JInt (next_free_id ids 1)) ∧
    stored (file_of module) (module_list ev module req w).2 =
      records (recs ++ [rec]) ∧
    ids_are (recs ++ [rec]) (ids ++ [next_free_id ids 1]).
Proof.
  intros Hst Hids (Hm & Hdata & Hjson) Hsave.
  exists (new_record ev module recs body).
  rewrite (module_list_create ev module req w recs body Hst) by
    (done || by rewrite Hm).
  pose proof (new_record_id ev module recs body) as Hid.
  rewrite (ids_are_omap _ _ Hids) in Hid.
  cbn [fst snd]. rewrite Hsave, stored_save_ok.
  split_and!; [done..|]. by apply ids_are_snoc.
Qed.

Lemma ids_are_find_first recs ids n i :
  ids_are recs ids → ids !! i = Some n →
  (∀ j, (j < i)%nat → ids !! j ≠ Some n) →
  ∃ d, list_find (has_id n) recs = Some (i, d).
Proof.
  intros Hids Hi Hfirst. pose proof (ids_are_find recs ids n Hids) as Hfind.
  destruct (list_find (has_id n) recs) as [[i' d]|].
  - destruct Hfind as (_ & Hi' & Hfirst'). exists d.
    destruct (Nat.lt_trichotomy i i') as [Hlt|[->|Hlt]]; [|done|].
    + by destruct (Hfirst' i Hlt).
    + by destruct (Hfirst i' Hlt).
  - destruct Hfind. by eapply list_elem_of_lookup_2.
Qed.

(** One delete of the first record with integer id [n], the write going
    through. *)
Lemma delete_step ev module req w recs ids n i :
  stored (file_of module) w = records recs → ids_are recs ids →
  ids !! i = Some n → (∀ j, (j < i)%nat → ids !! j ≠ Some n) →
  req_method req = DELETE → env_save ev = SaveOk →
  (module_item ev module n req w).1 = success_response ∧
  stored (file_of module) (module_item ev module n req w).2 =
    records (delete i recs) ∧
  ids_are (delete i recs) (delete i ids).
Proof.
  intros Hst Hids Hi Hfirst Hm Hsave.
  destruct (ids_are_find_first recs ids n i Hids Hi Hfirst) as [d Hfind].
  rewrite (module_item_delete ev module req w n recs i d Hst Hfind Hm).
  cbn [fst snd]. rewrite Hsave, stored_save_ok.
  split_and!; [done..|]. by apply ids_are_delete.
Qed.

(** ** C1: identifier assignment *)

(** C1. A create on a collection of records answers 201 with a record whose
    [id] is the smallest positive integer that is not the [id] of an
    existing record, where the ids that count are the [int] instances the
    code collects (JSON integers and, as everywhere in Python, [true] as 1
    and [false] as 0); when all ids are JSON integers, it is the smallest
    positive integer that is not in their list. With the write going
    through, the record is appended to the stored list. In particular: in a
    collection that starts empty, three creates give the ids 1, 2, 3 and,
    after the record with id 2 is deleted, the next create gives id 2. *)
Theorem C1_create_assigns_smallest_free_id :
  (∀ ev module req w recs body,
     stored (file_of module) w = records recs →
     is_create req body →
     ∃ new_id rec,
       (module_list ev module req w).1 = jsonify_status (JObj rec) 201 ∧
       rec !! "id" = Some (JInt new_id) ∧
       1 ≤ new_id ∧
       ¬ has_int_id recs new_id ∧
       (∀ m, 1 ≤ m < new_id → has_int_id recs m) ∧
       (∀ ids, ids_are recs ids →
          new_id ∉ ids ∧ ∀ m, 1 ≤ m < new_id → m ∈ ids) ∧
       (env_save ev = SaveOk →
        stored (file_of module) (module_list ev module req w).2 =
          records (recs ++ [rec])))
  ∧
  (∀ ev1 ev2 ev3 ev4 ev5 module r1 r2 r3 r4 rd b1 b2 b3 b4 w,
     stored (file_of module) w = records [] →
     Forall (λ ev, env_save ev = SaveOk) [ev1; ev2; ev3; ev4; ev5] →
     is_create r1 b1 → is_create r2 b2 → is_create r3 b3 → is_create r4 b4 →
     req_method rd = DELETE →
     let first := module_list ev1 module r1 w in
     let second := module_list ev2 module r2 first.2 in
     let third := module_list ev3 module r3 second.2 in
     let deleted := module_item ev4 module 2 rd third.2 in
     let fourth := module_list ev5 module r4 deleted.2 in
     ∃ rec1 rec2 rec3 rec4,
       first.1 = jsonify_status (JObj rec1) 201 ∧ rec1 !! "id" = Some (JInt 1) ∧
       second.1 = jsonify_status (JObj rec2) 201 ∧ rec2 !! "id" = Some (JInt 2) ∧
       third.1 = jsonify_status (JObj rec3) 201 ∧ rec3 !! "id" = Some (JInt 3) ∧
       deleted.1 = success_response ∧
       fourth.1 = jsonify_status (JObj rec4) 201 ∧ rec4 !! "id" = Some (JInt 2) ∧
       stored (file_of module) fourth.2 = records [rec1; rec3; rec4]).
Proof.
  split.
  - intros ev module req w recs body Hst (Hm & Hdata & Hjson).
    exists (next_free_id (omap int_id recs) 1), (new_record ev module recs body).
    rewrite (module_list_create ev module req w recs body Hst) by
      (done || by rewrite Hm).
    destruct (next_free_id_spec (omap int_id recs) 1) as (Hle & Hfree & Hbelow).
    split_and!; [done | apply new_record_id | done | | | |].
    + by rewrite has_int_id_omap.
    + intros m Hm'. rewrite has_int_id_omap. by apply Hbelow.
    + intros ids Hids. rewrite (ids_are_omap _ _ Hids) in Hfree, Hbelow.
      by rewrite (ids_are_omap _ _ Hids).
    + intros Hsave. cbn [snd]. by rewrite Hsave, stored_save_ok.
  - intros ev1 ev2 ev3 ev4 ev5 module r1 r2 r3 r4 rd b1 b2 b3 b4 w Hst Hsave
      Hr1 Hr2 Hr3 Hr4 Hrd; intros.
    apply Forall_cons in Hsave as [Hs1 Hsave].
    apply Forall_cons in Hsave as [Hs2 Hsave].
    apply Forall_cons in Hsave as [Hs3 Hsave].
    apply Forall_cons in Hsave as [Hs4 Hsave].
    apply Forall_cons in Hsave as [Hs5 _].
    assert (ids_are [] []) as Hids0 by constructor.
    destruct (create_step ev1 module r1 w [] [] b1 Hst Hids0 Hr1 Hs1)
      as (rec1 & Hresp1 & Hid1 & Hst1 & Hids1).
    fold first in Hresp1, Hst1.
    destruct (create_step ev2 module r2 first.2 _ _ b2 Hst1 Hids1 Hr2 Hs2)
      as (rec2 & Hresp2 & Hid2 & Hst2 & Hids2).
    fold second in Hresp2, Hst2.
    destruct (create_step ev3 module r3 second.2 _ _ b3 Hst2 Hids2 Hr3 Hs3)
      as (rec3 & Hresp3 & Hid3 & Hst3 & Hids3).
    fold third in Hresp3, Hst3.
    change (next_free_id [] 1) with 1 in *.
    change (next_free_id ([] ++ [1]) 1) with 2 in *.
    change (next_free_id (([] ++ [1]) ++ [2]) 1) with 3 in *.
    destruct (delete_step ev4 module rd third.2 _ _ 2 1%nat Hst3 Hids3)
      as (Hrespd & Hstd & Hidsd); [done | | done | done |].
    { intros j Hj. assert (j = 0%nat) as -> by lia. done. }
    fold deleted in Hrespd, Hstd.
    destruct (create_step ev5 module r4 deleted.2 _ _ b4 Hstd Hidsd Hr4 Hs5)
      as (rec4 & Hresp4 & Hid4 & Hst4 & _).
    fold fourth in Hresp4, Hst4.
    exists rec1, rec2, rec3, rec4. by split_and!.
Qed.

Lemma C1_create_assigns_smallest_free_id_witness :
  (∃ new_id rec,
     (module_list Examples.ev_ok "tools" (Examples.post "{}" ∅)
        Examples.one_tool).1 = jsonify_status (JObj rec) 201 ∧
     rec !! "id" = Some (JInt new_id) ∧
     1 ≤ new_id ∧
     ¬ has_int_id [Examples.tool5] new_id ∧
     (∀ m, 1 ≤ m < new_id → has_int_id [Examples.tool5] m) ∧
     (∀ ids, ids_are [Examples.tool5] ids →
        new_id ∉ ids ∧ ∀ m, 1 ≤ m < new_id → m ∈ ids) ∧
     (env_save Examples.ev_ok = SaveOk →
      stored (file_of "tools")
        (module_list Examples.ev_ok "tools" (Examples.post "{}" ∅)
           Examples.one_tool).2 = records ([Examples.tool5] ++ [rec])))
  ∧
  (let create := module_list Examples.ev_ok "tickets" (Examples.post "{}" ∅) in
   let first := create Examples.no_files in
   let second := create first.2 in
   let third := create second.2 in
   let deleted := module_item Examples.ev_ok "tickets" 2 Examples.delete_request
                    third.2 in
   let fourth := create deleted.2 in
   ∃ rec1 rec2 rec3 rec4,
     first.1 = jsonify_status (JObj rec1) 201 ∧ rec1 !! "id" = Some (JInt 1) ∧
     second.1 = jsonify_status (JObj rec2) 201 ∧ rec2 !! "id" = Some (JInt 2) ∧
     third.1 = jsonify_status (JObj rec3) 201 ∧ rec3 !! "id" = Some (JInt 3) ∧
     deleted.1 = success_response ∧
     fourth.1 = jsonify_status (JObj rec4) 201 ∧ rec4 !! "id" = Some (JInt 2) ∧
     stored (file_of "tickets") fourth.2 = records [rec1; rec3; rec4]).
Proof.
  split.
  - apply (proj1 C1_create_assigns_smallest_free_id Examples.ev_ok "tools"
             (Examples.post "{}" ∅) Examples.one_tool [Examples.tool5] ∅).
    + reflexivity.
    + unfold is_create. simpl.
      split_and!; [reflexivity | discriminate | reflexivity].
  - apply (proj2 C1_create_assigns_smallest_free_id
             Examples.ev_ok Examples.ev_ok Examples.ev_ok Examples.ev_ok
             Examples.ev_ok "tickets"
             (Examples.post "{}" ∅) (Examples.post "{}" ∅)
             (Examples.post "{}" ∅) (Examples.post "{}" ∅)
             Examples.delete_request ∅ ∅ ∅ ∅ Examples.no_files).
    + reflexivity.
    + repeat constructor.
    + unfold is_create. simpl.
      split_and!; [reflexivity | discriminate | reflexivity].
    + unfold is_create. simpl.
      split_and!; [reflexivity | discriminate | reflexivity].
    + unfold is_create. simpl.
      split_and!; [reflexivity | discriminate | reflexivity].
    + unfold is_create. simpl.
      split_and!; [reflexivity | discriminate | reflexivity].
    + reflexivity.
Defined.

(** ** C2: replace forces the [id] of the path *)

Lemma id_present_find item_id recs :
  id_present item_id recs → ∃ idx d, list_find (has_id item_id) recs = Some (idx, d).
Proof.
  intros (d & Hin & Hd).
  destruct (list_find_elem_of (has_id item_id) recs d Hin Hd) as [[idx d'] Hfind].
  by exists idx, d'.
Qed.

Lemma id_absent_find item_id recs :
  ¬ id_present item_id recs ↔ list_find (has_id item_id) recs = None.
Proof.
  rewrite list_find_None, Forall_forall. unfold id_present. split.
  - intros Habsent d Hin Hd. apply Habsent. by exists d.
  - intros Hall (d & Hin & Hd). by apply (Hall d).
Qed.

(** C2. A replace of an id that is present, with a body that decodes to a
    JSON object, answers 200 with the body in which [id] is set to the id of
    the path, whatever [id] the body carried, and with the write going
    through this record stands in the stored list at the position of the
    first record that had the id. So [Replace("tools", 5,
    {"id": 99, "name": "x"})] stores and returns [{"id": 5, "name": "x"}]. *)
Theorem C2_replace_forces_path_id :
  (∀ ev module item_id req w recs body,
     stored (file_of module) w = records recs →
     id_present item_id recs →
     is_replace req body →
     ∃ idx old,
       recs !! idx = Some old ∧ has_id item_id old ∧
       (∀ j d, recs !! j = Some d → (j < idx)%nat → ¬ has_id item_id d) ∧
       (module_item ev module item_id req w).1 =
         Response (JObj (<["id" := JInt item_id]> body)) 200 ∧
       (env_save ev = SaveOk →
        stored (file_of module) (module_item ev module item_id req w).2 =
          records (<[idx := <["id" := JInt item_id]> body]> recs)))
  ∧
  (∀ ev req w recs,
     stored (file_of "tools") w = records recs →
     id_present 5 recs →
     is_replace req {[ "id" := JInt 99; "name" := JStr "x" ]} →
     env_save ev = SaveOk →
     ∃ idx,
       (idx < length recs)%nat ∧
       (module_item ev "tools" 5 req w).1 =
         Response (JObj {[ "id" := JInt 5; "name" := JStr "x" ]}) 200 ∧
       stored (file_of "tools") (module_item ev "tools" 5 req w).2 =
         records (<[idx := {[ "id" := JInt 5; "name" := JStr "x" ]}]> recs)).
Proof.
  assert (∀ ev module item_id req w recs body,
     stored (file_of module) w = records recs →
     id_present item_id recs →
     is_replace req body →
     ∃ idx old,
       recs !! idx = Some old ∧ has_id item_id old ∧
       (∀ j d, recs !! j = Some d → (j < idx)%nat → ¬ has_id item_id d) ∧
       (module_item ev module item_id req w).1 =
         Response (JObj (<["id" := JInt item_id]> body)) 200 ∧
       (env_save ev = SaveOk →
        stored (file_of module) (module_item ev module item_id req w).2 =
          records (<[idx := <["id" := JInt item_id]> body]> recs))) as Hgen.
  { intros ev module item_id req w recs body Hst Hpresent (Hm & Hdata & Hjson).
    destruct (id_present_find _ _ Hpresent) as (idx & old & Hfind).
    exists idx, old.
    rewrite (module_item_replace ev module req w item_id recs idx old body
               Hst Hfind) by (done || by rewrite Hm).
    apply list_find_Some in Hfind as (Hlookup & Hold & Hfirst).
    split_and!; [done..|].
    intros Hsave. cbn [snd]. by rewrite Hsave, stored_save_ok. }
  split; [exact Hgen|].
  intros ev req w recs Hst Hpresent Hreq Hsave.
  destruct (Hgen ev "tools" 5 req w recs _ Hst Hpresent Hreq)
    as (idx & old & Hlookup & _ & _ & Hresp & Hstored).
  exists idx. split_and!; [by eapply lookup_lt_Some | exact Hresp | by apply Hstored].
Qed.

Lemma C2_replace_forces_path_id_witness :
  ∃ idx old,
    [Examples.tool5] !! idx = Some old ∧ has_id 5 old ∧
    (∀ j d, [Examples.tool5] !! j = Some d → (j < idx)%nat → ¬ has_id 5 d) ∧
    (module_item Examples.ev_ok "tools" 5
       (Examples.put "{}" {[ "id" := JInt 99; "name" := JStr "x" ]})
       Examples.one_tool).1 =
      Response (JObj (<["id" := JInt 5]> {[ "id" := JInt 99; "name" := JStr "x" ]})) 200 ∧
    (env_save Examples.ev_ok = SaveOk →
     stored (file_of "tools")
       (module_item Examples.ev_ok "tools" 5
          (Examples.put "{}" {[ "id" := JInt 99; "name" := JStr "x" ]})
          Examples.one_tool).2 =
       records (<[idx := <["id" := JInt 5]>
                            {[ "id" := JInt 99; "name" := JStr "x" ]}]>
                  [Examples.tool5])).
Proof.
  apply (proj1 C2_replace_forces_path_id Examples.ev_ok "tools" 5
           (Examples.put "{}" {[ "id" := JInt 99; "name" := JStr "x" ]})
           Examples.one_tool [Examples.tool5]).
  - reflexivity.
  - exists Examples.tool5. split; [apply list_elem_of_here | reflexivity].
  - unfold is_replace. simpl. split_and!; [reflexivity | discriminate | reflexivity].
Defined.

(** ** C3: requests without a usable body *)

(** C3 as stated fails: a replace with an empty body for id 7, which no
    record has, is answered 404 and not 400. *)
Lemma C3_counterexample_replace_absent_id : ¬ C3_as_stated.
Proof.
  intros Hclaim.
  destruct (Hclaim Examples.ev_ok "tools" 7 (Request PUT "" (Returns JNull))
              Examples.one_tool [Examples.tool5]) as [_ Hput].
  - reflexivity.
  - left. reflexivity.
  - destruct Hput as [Hstatus _]; [reflexivity|].
    vm_compute in Hstatus. discriminate.
Qed.

(** C3, amended. A create request is answered 400 when its body is empty or
    when [request.get_json()] returns [None], whatever the file of the
    collection holds (nothing, no file at all, or records); so is a replace
    request for an id that a record of the collection has. No file changes
    in either case. *)
Theorem C3_empty_or_none_body_rejected :
  (∀ ev module req w,
     req_method req = POST →
     no_body req ∨ req_get_json req = Returns JNull →
     resp_status (module_list ev module req w).1 = 400 ∧
     files (module_list ev module req w).2 = files w) ∧
  (∀ ev module item_id req w recs,
     req_method req = PUT →
     no_body req ∨ req_get_json req = Returns JNull →
     stored (file_of module) w = records recs →
     id_present item_id recs →
     resp_status (module_item ev module item_id req w).1 = 400 ∧
     files (module_item ev module item_id req w).2 = files w).
Proof.
  split.
  - intros ev module req w Hpost Hbody.
    destruct (decide (req_data req = "")) as [Hdata|Hdata].
    + rewrite module_list_empty_body by (done || by rewrite Hpost).
      cbn [fst snd]. by rewrite load_json_files.
    + destruct Hbody as [?|Hjson]; [done|].
      rewrite module_list_none by (done || by rewrite Hpost).
      cbn [fst snd]. by rewrite load_json_files.
  - intros ev module item_id req w recs Hput Hbody Hst
      (idx & d & Hfind)%id_present_find.
    destruct (decide (req_data req = "")) as [Hdata|Hdata].
    + rewrite (module_item_empty_body ev module req w item_id recs idx d)
        by (done || by rewrite Hput).
      cbn [fst snd]. by rewrite load_json_files.
    + destruct Hbody as [?|Hjson]; [done|].
      rewrite (module_item_none ev module req w item_id recs idx d)
        by (done || by rewrite Hput).
      cbn [fst snd]. by rewrite load_json_files.
Qed.

Lemma C3_empty_or_none_body_rejected_witness :
  (resp_status (module_list Examples.ev_ok "tools"
                  (Request POST "" (Returns JNull)) Examples.no_files).1 = 400 ∧
   files (module_list Examples.ev_ok "tools"
            (Request POST "" (Returns JNull)) Examples.no_files).2 =
     files Examples.no_files) ∧
  (resp_status (module_list Examples.ev_ok "tools"
                  (Request POST "null" (Returns JNull)) Examples.one_tool).1 = 400 ∧
   files (module_list Examples.ev_ok "tools"
            (Request POST "null" (Returns JNull)) Examples.one_tool).2 =
     files Examples.one_tool) ∧
  (resp_status (module_item Examples.ev_ok "tools" 5
                  (Request PUT "null" (Returns JNull)) Examples.one_tool).1 = 400 ∧
   files (module_item Examples.ev_ok "tools" 5
            (Request PUT "null" (Returns JNull)) Examples.one_tool).2 =
     files Examples.one_tool).
Proof.
  split; [|split].
  - apply (proj1 C3_empty_or_none_body_rejected Examples.ev_ok "tools"
             (Request POST "" (Returns JNull)) Examples.no_files).
    + reflexivity.
    + left. reflexivity.
  - apply (proj1 C3_empty_or_none_body_rejected Examples.ev_ok "tools"
             (Request POST "null" (Returns JNull)) Examples.one_tool).
    + reflexivity.
    + right. reflexivity.
  - apply (proj2 C3_empty_or_none_body_rejected Examples.ev_ok "tools" 5
             (Request PUT "null" (Returns JNull)) Examples.one_tool
             [Examples.tool5]).
    + reflexivity.
    + right. reflexivity.
    + reflexivity.
    + exists Examples.tool5. split; [apply list_elem_of_here | reflexivity].
Defined.

(** When [request.get_json()] raises, the [except] clause of the handler
    answers 500; no file changes then either. *)
Remark get_json_raises_answered_500 ev module item_id req w recs e :
  req_data req ≠ "" → req_get_json req = Raises e →
  (req_method req = POST →
   resp_status (module_list ev module req w).1 = 500 ∧
   files (module_list ev module req w).2 = files w) ∧
  (req_method req = PUT →
   stored (file_of module) w = records recs →
   id_present item_id recs →
   resp_status (module_item ev module item_id req w).1 = 500 ∧
   files (module_item ev module item_id req w).2 = files w).
Proof.
  intros Hdata Hjson. split.
  - intros Hm. unfold module_list. rewrite load_json_stored.
    rewrite decide_False by by rewrite Hm.
    unfold module_list_try, get_json. rewrite decide_False by done.
    rewrite Hjson. cbn. by rewrite load_json_files.
  - intros Hm Hst (idx & d & Hfind)%id_present_find.
    rewrite (module_item_put_dispatch ev module req w item_id recs idx d)
      by (done || by rewrite Hm).
    unfold module_item_try, get_json. rewrite decide_False by done.
    rewrite Hjson. cbn. by rewrite load_json_files.
Qed.

(** ** C4: ids stay unique positive integers *)

Lemma collection_ok_empty : collection_ok (JArr []).
Proof.
  exists []. split; [done|]. exists []. split_and!; constructor.
Qed.

(** The only file a handler writes is the one of its collection. *)
Lemma module_list_writes ev module req w :
  files (module_list ev module req w).2 = files w ∨
  ∃ data, (module_list ev module req w).2 =
          (save_json (env_save ev) (file_of module) data
             (load_json (file_of module) w).2).2.
Proof.
  unfold module_list. rewrite load_json_stored.
  pose proof (load_json_files (file_of module) w) as Hfiles.
  case_decide; [by left|].
  unfold module_list_try, get_json.
  case_decide; [by left|].
  destruct (req_get_json req) as [v|e]; cbn [mbind result_bind]; [|by left].
  destruct (Py.iter (stored (file_of module) w)) as [its|e];
    cbn [mbind result_bind]; [|by destruct v; left].
  destruct (existing_ids its) as [ids|e];
    cbn [mbind result_bind]; [|by destruct v; left].
  destruct v; cbn [Py.setitem mbind result_bind]; try by left.
  match goal with
  | |- context [Py.append ?a ?b] => destruct (Py.append a b) as [items'|e]
  end; cbn [mbind result_bind snd]; [right; by eexists | by left].
Qed.

Lemma module_item_writes ev module item_id req w :
  files (module_item ev module item_id req w).2 = files w ∨
  ∃ data, (module_item ev module item_id req w).2 =
          (save_json (env_save ev) (file_of module) data
             (load_json (file_of module) w).2).2.
Proof.
  unfold module_item. rewrite load_json_stored.
  pose proof (load_json_files (file_of module) w) as Hfiles.
  destruct (Py.iter (stored (file_of module) w)) as [its|e];
    cbn [mbind result_bind]; [|by left].
  destruct (find_index its item_id 0) as [[idx|]|e]; [|by left..].
  case_decide; [by destruct (Py.getitem _ _); left|].
  case_decide.
  { destruct (Py.pop _ _); [right; by eexists | by left]. }
  unfold module_item_try, get_json.
  case_decide; [by left|].
  destruct (req_get_json req) as [v|e]; cbn [mbind result_bind]; [|by left].
  destruct v; cbn [Py.setitem mbind result_bind]; try by left.
  destruct (Py.setitem_index _ _ _); cbn [mbind result_bind snd];
    [right; by eexists | by left].
Qed.

Lemma module_list_other_file ev module req w filename :
  filename ≠ file_of module →
  stored filename (module_list ev module req w).2 = stored filename w.
Proof.
  intros Hne. destruct (module_list_writes ev module req w) as [Hf|[data ->]].
  - by apply stored_files.
  - rewrite stored_save_other by done. apply stored_files, load_json_files.
Qed.

Lemma module_item_other_file ev module item_id req w filename :
  filename ≠ file_of module →
  stored filename (module_item ev module item_id req w).2 = stored filename w.
Proof.
  intros Hne.
  destruct (module_item_writes ev module item_id req w) as [Hf|[data ->]].
  - by apply stored_files.
  - rewrite stored_save_other by done. apply stored_files, load_json_files.
Qed.

(** What [module_list] writes when the collection is a list of records: the
    list with the new record at its end. *)
Lemma module_list_records_writes ev module req w recs :
  stored (file_of module) w = records recs →
  files (module_list ev module req w).2 = files w ∨
  ∃ body, (module_list ev module req w).2 =
          (save_json (env_save ev) (file_of module)
             (records (recs ++ [new_record ev module recs body]))
             (load_json (file_of module) w).2).2.
Proof.
  intros Hst. pose proof (load_json_files (file_of module) w) as Hfiles.
  destruct (decide (req_method req = GET)) as [Hm|Hm];
    [left; by rewrite module_list_get|].
  destruct (decide (req_data req = "")) as [Hdata|Hdata];
    [left; by rewrite module_list_empty_body|].
  destruct (req_get_json req) as [v|e] eqn:Hjson.
  - destruct v;
      try (left; unfold module_list; rewrite load_json_stored, Hst;
           rewrite decide_False by done; unfold module_list_try, get_json;
           rewrite decide_False by done; rewrite Hjson;
           cbn [mbind result_bind]; rewrite ?iter_records;
           cbn [mbind result_bind]; rewrite ?existing_ids_records; done).
    right. exists d. by rewrite (module_list_create ev module req w recs d).
  - left. unfold module_list. rewrite load_json_stored, Hst.
    rewrite decide_False by done. unfold module_list_try, get_json.
    rewrite decide_False by done. by rewrite Hjson.
Qed.

(** What [module_item] writes when the collection is a list of records: the
    list without the record found, or with a record of the id of the path
    in its place. *)
Lemma module_item_records_writes ev module item_id req w recs :
  stored (file_of module) w = records recs →
  files (module_item ev module item_id req w).2 = files w ∨
  ∃ idx d data,
    list_find (has_id item_id) recs = Some (idx, d) ∧
    (module_item ev module item_id req w).2 =
      (save_json (env_save ev) (file_of module) (records data)
         (load_json (file_of module) w).2).2 ∧
    (data = delete idx recs ∨
     ∃ body, data = <[idx := <["id" := JInt item_id]> body]> recs).
Proof.
  intros Hst. pose proof (load_json_files (file_of module) w) as Hfiles.
  destruct (list_find (has_id item_id) recs) as [[idx d]|] eqn:Hfind;
    [|left; by rewrite (module_item_absent ev module req w item_id recs)].
  destruct (decide (req_method req = GET)) as [Hm|Hm];
    [left; by rewrite (module_item_get ev module req w item_id recs idx d)|].
  destruct (decide (req_method req = DELETE)) as [Hm'|Hm'].
  { right. exists idx, d, (delete idx recs). split_and!; [done| |by left].
    by rewrite (module_item_delete ev module req w item_id recs idx d). }
  destruct (decide (req_data req = "")) as [Hdata|Hdata];
    [left; by rewrite (module_item_empty_body ev module req w item_id recs idx d)|].
  destruct (req_get_json req) as [v|e] eqn:Hjson.
  - destruct v;
      try (left;
           rewrite (module_item_put_dispatch ev module req w item_id recs idx d)
             by done;
           unfold module_item_try, get_json; rewrite decide_False by done;
           rewrite Hjson; done).
    right. exists idx, d, (<[idx := <["id" := JInt item_id]> d0]> recs).
    split_and!; [done| |right; by eexists].
    by rewrite (module_item_replace ev module req w item_id recs idx d d0).
  - left.
    rewrite (module_item_put_dispatch ev module req w item_id recs idx d) by done.
    unfold module_item_try, get_json. rewrite decide_False by done.
    by rewrite Hjson.
Qed.

Lemma collection_ok_save o filename data w :
  collection_ok (stored filename w) → collection_ok data →
  collection_ok (stored filename (save_json o filename data w).2).
Proof.
  intros Hold Hnew.
  assert (o = SaveOk ∨ o ≠ SaveOk) as [->|Hfail] by (destruct o; auto).
  - by rewrite stored_save_ok.
  - destruct (stored_save_fails o filename data w Hfail) as [-> | ->];
      [done | apply collection_ok_empty].
Qed.

Lemma unique_positive_ids_create ev module recs body :
  unique_positive_ids recs →
  unique_positive_ids (recs ++ [new_record ev module recs body]).
Proof.
  intros (ids & Hids & Hpos & Hnodup).
  pose proof (new_record_id ev module recs body) as Hid.
  rewrite (ids_are_omap _ _ Hids) in Hid.
  destruct (next_free_id_spec ids 1) as (Hle & Hfree & _).
  exists (ids ++ [next_free_id ids 1]). split_and!.
  - by apply ids_are_snoc.
  - apply Forall_app. split; [done|]. by repeat constructor.
  - apply NoDup_app. split_and!; [done | | apply NoDup_singleton].
    intros z Hz ->%list_elem_of_singleton. done.
Qed.

Lemma unique_positive_ids_delete recs idx :
  unique_positive_ids recs → unique_positive_ids (delete idx recs).
Proof.
  intros (ids & Hids & Hpos & Hnodup). exists (delete idx ids). split_and!.
  - by apply ids_are_delete.
  - by apply Forall_delete.
  - eapply sublist_NoDup; [done | apply sublist_delete].
Qed.

Lemma unique_positive_ids_replace recs item_id idx d body :
  unique_positive_ids recs →
  list_find (has_id item_id) recs = Some (idx, d) →
  unique_positive_ids (<[idx := <["id" := JInt item_id]> body]> recs).
Proof.
  intros (ids & Hids & Hpos & Hnodup) Hfind. exists ids.
  pose proof (ids_are_find recs ids item_id Hids) as Hspec.
  rewrite Hfind in Hspec. destruct Hspec as (_ & Hidx & _).
  split_and!; [|done..].
  eapply ids_are_insert; [done.. | apply lookup_insert_eq].
Qed.

(** C4. Whatever request [module_list] or [module_item] handles (create,
    replace and delete among them), with whatever body and whether or not
    the write goes through: a collection whose records have unique positive
    integer ids is such a collection afterwards. This holds for the
    collection of the request and for every other one. *)
Theorem C4_ids_stay_unique_positive ev module item_id req req' w filename :
  collection_ok (stored filename w) →
  collection_ok (stored filename (module_list ev module req w).2) ∧
  collection_ok (stored filename (module_item ev module item_id req' w).2).
Proof.
  intros Hok. destruct (decide (filename = file_of module)) as [->|Hne].
  2: { by rewrite module_list_other_file, module_item_other_file. }
  pose proof Hok as (recs & Hst & Hrecs).
  assert (collection_ok (stored (file_of module) (load_json (file_of module) w).2))
    as Hok' by by rewrite stored_load.
  split.
  - destruct (module_list_records_writes ev module req w recs Hst)
      as [Hf|[body ->]]; [by rewrite (stored_files _ _ _ Hf)|].
    apply collection_ok_save; [done|].
    eexists. split; [done|]. by apply unique_positive_ids_create.
  - destruct (module_item_records_writes ev module item_id req' w recs Hst)
      as [Hf|(idx & d & data & Hfind & -> & Hdata)];
      [by rewrite (stored_files _ _ _ Hf)|].
    apply collection_ok_save; [done|].
    exists data. split; [done|]. destruct Hdata as [->|[body ->]].
    + by apply unique_positive_ids_delete.
    + by eapply unique_positive_ids_replace.
Qed.

Lemma C4_ids_stay_unique_positive_witness :
  collection_ok
    (stored "tools.json"
       (module_list Examples.ev_ok "tools" (Examples.post "{}" ∅)
          Examples.one_tool).2) ∧
  collection_ok
    (stored "tools.json"
       (module_item Examples.ev_ok "tools" 5 (Examples.put "{}" ∅)
          Examples.one_tool).2).
Proof.
  apply (C4_ids_stay_unique_positive Examples.ev_ok "tools" 5
           (Examples.post "{}" ∅) (Examples.put "{}" ∅) Examples.one_tool
           "tools.json").
  exists [Examples.tool5]. split; [reflexivity|].
  exists [5]. split_and!.
  - repeat constructor.
  - repeat constructor. lia.
  - apply NoDup_singleton.
Defined.

(** ** C5: replacing a record by what was fetched *)

(** A collection that holds a record is a file with that content. *)
Lemma stored_records_file filename w recs :
  stored filename w = records recs → recs ≠ [] →
  files w !! filename = Some (Content (records recs)).
Proof.
  unfold stored, load_json. intros Hst Hne.
  destruct (files w !! filename) as [[v|]|]; simplify_eq/=; [done|..];
    by destruct recs.
Qed.

(** C5. When a fetch of an id returns a record whose [id] is a JSON
    integer, as the data model has it, a replace of the same id with the
    fetched record as its body returns this record again and leaves the
    stored list, and with it every file, as it was: no field changes, the
    id is the same and [created_at] is the one the record had. (The write
    is taken not to break off half way, which would lose the file.) *)
Theorem C5_replace_with_fetched_is_identity
    ev ev' module item_id fetch_req put_req w recs d :
  stored (file_of module) w = records recs →
  req_method fetch_req = GET →
  (module_item ev module item_id fetch_req w).1 = Response (JObj d) 200 →
  (∃ n, d !! "id" = Some (JInt n)) →
  is_replace put_req d →
  env_save ev' ≠ SaveWriteFails →
  let fetched := module_item ev module item_id fetch_req w in
  let replaced := module_item ev' module item_id put_req fetched.2 in
  replaced.1 = Response (JObj d) 200 ∧
  stored (file_of module) replaced.2 = records recs ∧
  files replaced.2 = files w.
Proof.
  intros Hst Hget Hfetched [n Hn] (Hm & Hdata & Hjson) Hsave fetched replaced.
  destruct (list_find (has_id item_id) recs) as [[idx d']|] eqn:Hfind.
  2: { rewrite (module_item_absent ev module fetch_req w item_id recs Hst Hfind)
         in Hfetched. discriminate. }
  assert (fetched = (jsonify (JObj d'), (load_json (file_of module) w).2))
    as Hfetch by apply (module_item_get _ _ _ _ _ _ _ _ Hst Hfind Hget).
  assert (d' = d) as ->.
  { unfold fetched in Hfetch. rewrite Hfetch in Hfetched.
    by injection Hfetched. }
  assert (stored (file_of module) fetched.2 = records recs) as Hst'.
  { rewrite Hfetch. cbn [snd]. by rewrite stored_load. }
  assert (files fetched.2 = files w) as Hfiles.
  { rewrite Hfetch. apply load_json_files. }
  pose proof Hfind as (Hlookup & Hd & _)%list_find_Some.
  apply (has_id_int _ _ item_id Hn) in Hd as ->.
  assert (recs ≠ []) as Hne by (intros ->; done).
  unfold replaced.
  rewrite (module_item_replace ev' module put_req fetched.2 item_id recs idx d d
             Hst' Hfind) by (done || by rewrite Hm).
  rewrite (insert_id d "id" (JInt item_id) Hn), (list_insert_id recs idx d Hlookup).
  cbn [fst snd].
  assert (files (save_json (env_save ev') (file_of module) (records recs)
                   (load_json (file_of module) fetched.2).2).2 = files w) as Hsame.
  { destruct (env_save ev'); [| |done]; simpl; rewrite load_json_files, Hfiles;
      [|done].
    apply insert_id. by apply stored_records_file. }
  split_and!; [done | | done].
  by rewrite (stored_files _ w _ Hsame).
Qed.

Lemma C5_replace_with_fetched_is_identity_witness :
  let fetched := module_item Examples.ev_ok "tools" 5 Examples.get_request
                   Examples.one_tool in
  let replaced := module_item Examples.ev_ok "tools" 5
                    (Examples.put "{}" Examples.tool5) fetched.2 in
  replaced.1 = Response (JObj Examples.tool5) 200 ∧
  stored (file_of "tools") replaced.2 = records [Examples.tool5] ∧
  files replaced.2 = files Examples.one_tool.
Proof.
  apply (C5_replace_with_fetched_is_identity Examples.ev_ok Examples.ev_ok
           "tools" 5 Examples.get_request (Examples.put "{}" Examples.tool5)
           Examples.one_tool [Examples.tool5] Examples.tool5).
  - reflexivity.
  - reflexivity.
  - reflexivity.
  - exists 5. reflexivity.
  - unfold is_replace. simpl. split_and!; [reflexivity | discriminate | reflexivity].
  - discriminate.
Defined.

(** ** C6: [created_at] *)

Lemma new_record_created_at ev module recs body :
  new_record ev module recs body !! "created_at" =
  Some (default (JStr (get_timestamp_iso (env_clock ev))) (body !! "created_at")).
Proof.
  unfold new_record.
  repeat case_decide; rewrite ?faq_defaults_other, ?tools_defaults_other by done;
    case_match eqn:Hc; rewrite lookup_insert_ne in Hc by done;
    rewrite ?lookup_insert_eq, ?lookup_insert_ne by done; by rewrite Hc.
Qed.

(** A create keeps a [created_at] that the body carries and otherwise sets
    it to [get_timestamp_iso()], the server's local time in the format
    [%Y-%m-%dT%H:%M:%S.000Z]. *)
Lemma create_created_at ev module req w recs body :
  stored (file_of module) w = records recs → is_create req body →
  ∃ rec,
    (module_list ev module req w).1 = Response (JObj rec) 201 ∧
    rec !! "created_at" =
      Some (default (JStr (strftime_iso (localtime (env_clock ev))))
              (body !! "created_at")).
Proof.
  intros Hst (Hm & Hdata & Hjson). exists (new_record ev module recs body).
  rewrite (module_list_create ev module req w recs body Hst)
    by (done || by rewrite Hm).
  split; [done | apply new_record_created_at].
Qed.

(** C6. On a server whose local time is one hour ahead of UTC, a create at
    12:00:00 UTC whose body has no [created_at] stores
    "2026-01-05T13:00:00.000Z": the local time under the UTC designator [Z],
    and not the current UTC timestamp "2026-01-05T12:00:00.000Z". *)
Theorem C6_created_at_is_local_time :
  let r := module_list Examples.ev_ok "tickets" (Examples.post "{}" ∅)
             Examples.no_files in
  ∃ rec,
    r.1 = Response (JObj rec) 201 ∧
    rec !! "created_at" = Some (JStr "2026-01-05T13:00:00.000Z") ∧
    strftime_iso (gmtime (env_clock Examples.ev_ok)) = "2026-01-05T12:00:00.000Z" ∧
    rec !! "created_at" ≠
      Some (JStr (strftime_iso (gmtime (env_clock Examples.ev_ok)))).
Proof.
  eexists. split_and!; [reflexivity | reflexivity | reflexivity |].
  vm_compute. discriminate.
Qed.

(** ** C7: delete *)

(** C7. A delete on a collection of records answers 404 exactly when no
    record has the id. In that case no file changes, so a list request reads
    the same afterwards. When a record has the id, the answer is 200 and
    the first record with the id is taken out: with the write going through,
    the file holds the records before it followed by the records after it,
    in their order. *)
Theorem C7_delete_not_found_iff_absent ev module item_id req w recs :
  stored (file_of module) w = records recs →
  req_method req = DELETE →
  let r := module_item ev module item_id req w in
  (resp_status r.1 = 404 ↔ ¬ id_present item_id recs) ∧
  (¬ id_present item_id recs →
     r.1 = not_found_response ∧ files r.2 = files w ∧
     ∀ ev' req', req_method req' = GET →
       (module_list ev' module req' r.2).1 = (module_list ev' module req' w).1) ∧
  (id_present item_id recs →
     ∃ idx d,
       recs !! idx = Some d ∧ has_id item_id d ∧
       (∀ j d', recs !! j = Some d' → (j < idx)%nat → ¬ has_id item_id d') ∧
       r.1 = Response (JObj {[ "success" := JBool true ]}) 200 ∧
       (env_save ev = SaveOk →
        files r.2 =
          <[file_of module := Content (records (take idx recs ++ drop (S idx) recs))]>
            (files w) ∧
        stored (file_of module) r.2 =
          records (take idx recs ++ drop (S idx) recs))).
Proof.
  intros Hst Hm r.
  destruct (list_find (has_id item_id) recs) as [[idx d]|] eqn:Hfind.
  - assert (id_present item_id recs) as Hpresent.
    { apply list_find_Some in Hfind as (Hlookup & Hd & _).
      exists d. split; [by eapply list_elem_of_lookup_2 | done]. }
    assert (r = (success_response,
                 (save_json (env_save ev) (file_of module) (records (delete idx recs))
                    (load_json (file_of module) w).2).2)) as Hr
      by apply (module_item_delete _ _ _ _ _ _ _ _ Hst Hfind Hm).
    rewrite Hr. cbn [fst snd]. split_and!.
    + split; [discriminate | tauto].
    + tauto.
    + intros _. exists idx, d.
      apply list_find_Some in Hfind as (Hlookup & Hd & Hfirst).
      rewrite <- delete_take_drop.
      split_and!; [done..|]. intros Hsave. rewrite Hsave, stored_save_ok.
      simpl. by rewrite load_json_files.
  - assert (¬ id_present item_id recs) as Habsent by by apply id_absent_find.
    assert (r = (not_found_response, (load_json (file_of module) w).2)) as Hr
      by apply (module_item_absent _ _ _ _ _ _ Hst Hfind).
    rewrite Hr. cbn [fst snd]. split_and!.
    + done.
    + intros _. split_and!; [done | apply load_json_files |].
      intros ev' req' Hget. rewrite !module_list_get by done.
      cbn [fst]. by rewrite stored_load.
    + done.
Qed.

Lemma C7_delete_not_found_iff_absent_witness :
  let r := module_item Examples.ev_ok "tools" 5 Examples.delete_request
             Examples.one_tool in
  (resp_status r.1 = 404 ↔ ¬ id_present 5 [Examples.tool5]) ∧
  (¬ id_present 5 [Examples.tool5] →
     r.1 = not_found_response ∧ files r.2 = files Examples.one_tool ∧
     ∀ ev' req', req_method req' = GET →
       (module_list ev' "tools" req' r.2).1 =
       (module_list ev' "tools" req' Examples.one_tool).1) ∧
  (id_present 5 [Examples.tool5] →
     ∃ idx d,
       [Examples.tool5] !! idx = Some d ∧ has_id 5 d ∧
       (∀ j d', [Examples.tool5] !! j = Some d' → (j < idx)%nat → ¬ has_id 5 d') ∧
       r.1 = Response (JObj {[ "success" := JBool true ]}) 200 ∧
       (env_save Examples.ev_ok = SaveOk →
        files r.2 =
          <[file_of "tools" :=
              Content (records (take idx [Examples.tool5] ++
                                drop (S idx) [Examples.tool5]))]>
            (files Examples.one_tool) ∧
        stored (file_of "tools") r.2 =
          records (take idx [Examples.tool5] ++ drop (S idx) [Examples.tool5]))).
Proof.
  apply (C7_delete_not_found_iff_absent Examples.ev_ok "tools" 5
           Examples.delete_request Examples.one_tool [Examples.tool5]).
  - reflexivity.
  - reflexivity.
Defined.

(** ** C8: default fields of "tools" and "faq" *)

Lemma new_record_tools ev recs body :
  let rec := new_record ev "tools" recs body in
  rec !! "admin" = Some (default (JBool false) (body !! "admin")) ∧
  rec !! "autostart" = Some (default (JBool false) (body !! "autostart")) ∧
  rec !! "favorite" = Some (default (JBool false) (body !! "favorite")) ∧
  rec !! "tags" = Some (default (JArr []) (body !! "tags")).
Proof.
  unfold new_record. repeat case_decide; try done.
  unfold tools_defaults.
  split_and!;
    rewrite ?setdefault_lookup_ne by done; rewrite setdefault_lookup;
    rewrite ?setdefault_lookup_ne by done;
    case_match; by rewrite ?lookup_insert_ne by done.
Qed.

Lemma new_record_faq ev recs body :
  let rec := new_record ev "faq" recs body in
  rec !! "tags" = Some (default (JArr []) (body !! "tags")) ∧
  rec !! "favorite" = Some (default (JBool false) (body !! "favorite")) ∧
  rec !! "attachments" = Some (default (JArr []) (body !! "attachments")).
Proof.
  unfold new_record. repeat case_decide; try done.
  unfold faq_defaults.
  split_and!;
    rewrite ?setdefault_lookup_ne by done; rewrite setdefault_lookup;
    rewrite ?setdefault_lookup_ne by done;
    case_match; by rewrite ?lookup_insert_ne by done.
Qed.

(** C8. A create in "tools" answers 201 with a record in which [admin],
    [autostart] and [favorite] are the values of the body or else [false],
    and [tags] is the value of the body or else the empty list; a create in
    "faq" does so for [tags] (empty list), [favorite] ([false]) and
    [attachments] (empty list). A POST of [{"question":"Q","answer":"A"}] to
    an empty "faq" collection is answered 201 with [id] 1, the two fields,
    [created_at], [tags] [[]], [favorite] [false] and [attachments] [[]]. *)
Theorem C8_collection_defaults :
  (∀ ev req w recs body,
     stored (file_of "tools") w = records recs → is_create req body →
     ∃ rec,
       (module_list ev "tools" req w).1 = Response (JObj rec) 201 ∧
       rec !! "admin" = Some (default (JBool false) (body !! "admin")) ∧
       rec !! "autostart" = Some (default (JBool false) (body !! "autostart")) ∧
       rec !! "favorite" = Some (default (JBool false) (body !! "favorite")) ∧
       rec !! "tags" = Some (default (JArr []) (body !! "tags")))
  ∧
  (∀ ev req w recs body,
     stored (file_of "faq") w = records recs → is_create req body →
     ∃ rec,
       (module_list ev "faq" req w).1 = Response (JObj rec) 201 ∧
       rec !! "tags" = Some (default (JArr []) (body !! "tags")) ∧
       rec !! "favorite" = Some (default (JBool false) (body !! "favorite")) ∧
       rec !! "attachments" = Some (default (JArr []) (body !! "attachments")))
  ∧
  (∀ ev req w,
     stored (file_of "faq") w = records [] →
     is_create req {[ "question" := JStr "Q"; "answer" := JStr "A" ]} →
     (module_list ev "faq" req w).1 =
     Response
       (JObj {[ "id" := JInt 1;
                "question" := JStr "Q";
                "answer" := JStr "A";
                "created_at" := JStr (get_timestamp_iso (env_clock ev));
                "tags" := JArr [];
                "favorite" := JBool false;
                "attachments" := JArr [] ]})
       201).
Proof.
  split_and!.
  - intros ev req w recs body Hst (Hm & Hdata & Hjson).
    exists (new_record ev "tools" recs body).
    rewrite (module_list_create ev "tools" req w recs body Hst)
      by (done || by rewrite Hm).
    split; [done | apply new_record_tools].
  - intros ev req w recs body Hst (Hm & Hdata & Hjson).
    exists (new_record ev "faq" recs body).
    rewrite (module_list_create ev "faq" req w recs body Hst)
      by (done || by rewrite Hm).
    split; [done | apply new_record_faq].
  - intros ev req w Hst (Hm & Hdata & Hjson).
    rewrite (module_list_create ev "faq" req w [] _ Hst)
      by (done || by rewrite Hm).
    cbn [fst]. unfold jsonify_status. reflexivity.
Qed.

Lemma C8_collection_defaults_witness :
  (∃ rec,
     (module_list Examples.ev_ok "tools"
        (Examples.post "{}" {[ "admin" := JBool true ]}) Examples.one_tool).1 =
       Response (JObj rec) 201 ∧
     rec !! "admin" =
       Some (default (JBool false)
               (({[ "admin" := JBool true ]} : gmap string json) !! "admin")) ∧
     rec !! "autostart" =
       Some (default (JBool false)
               (({[ "admin" := JBool true ]} : gmap string json) !! "autostart")) ∧
     rec !! "favorite" =
       Some (default (JBool false)
               (({[ "admin" := JBool true ]} : gmap string json) !! "favorite")) ∧
     rec !! "tags" =
       Some (default (JArr [])
               (({[ "admin" := JBool true ]} : gmap string json) !! "tags")))
  ∧
  (module_list Examples.ev_ok "faq"
     (Examples.post "{}" {[ "question" := JStr "Q"; "answer" := JStr "A" ]})
     Examples.no_files).1 =
   Response
     (JObj {[ "id" := JInt 1;
              "question" := JStr "Q";
              "answer" := JStr "A";
              "created_at" := JStr (get_timestamp_iso (env_clock Examples.ev_ok));
              "tags" := JArr [];
              "favorite" := JBool false;
              "attachments" := JArr [] ]})
     201.
Proof.
  split.
  - apply (proj1 C8_collection_defaults Examples.ev_ok
             (Examples.post "{}" {[ "admin" := JBool true ]}) Examples.one_tool
             [Examples.tool5] {[ "admin" := JBool true ]}).
    + reflexivity.
    + unfold is_create. simpl.
      split_and!; [reflexivity | discriminate | reflexivity].
  - apply (proj2 (proj2 C8_collection_defaults) Examples.ev_ok
             (Examples.post "{}" {[ "question" := JStr "Q"; "answer" := JStr "A" ]})
             Examples.no_files).
    + reflexivity.
    + unfold is_create. simpl.
      split_and!; [reflexivity | discriminate | reflexivity].
Defined.

(** ** C9: a failed write *)

Lemma save_json_fails_log o filename data w :
  o ≠ SaveOk →
  (save_json o filename data w).1 = false ∧
  log (save_json o filename data w).2 = log w ++ [SaveError filename].
Proof. by destruct o. Qed.

(** C9. When the write to disk fails, a create on a collection of records,
    the empty collection and a collection without a file included, is still
    answered 201, and a replace and a delete of a present id are still
    answered 200: each answer is the one given when the write goes through,
    and the failure shows in the log only. *)
Theorem C9_save_failure_still_reports_success :
  (∀ ev module req w recs body,
     env_save ev ≠ SaveOk →
     stored (file_of module) w = records recs →
     is_create req body →
     let ok := Env (env_clock ev) SaveOk in
     let created := module_list ev module req w in
     resp_status created.1 = 201 ∧
     created.1 = (module_list ok module req w).1 ∧
     SaveError (file_of module) ∈ log created.2) ∧
  (∀ ev module item_id req w recs body,
     env_save ev ≠ SaveOk →
     stored (file_of module) w = records recs →
     id_present item_id recs →
     is_replace req body →
     let ok := Env (env_clock ev) SaveOk in
     let replaced := module_item ev module item_id req w in
     resp_status replaced.1 = 200 ∧
     replaced.1 = (module_item ok module item_id req w).1 ∧
     SaveError (file_of module) ∈ log replaced.2) ∧
  (∀ ev module item_id req w recs,
     env_save ev ≠ SaveOk →
     stored (file_of module) w = records recs →
     id_present item_id recs →
     req_method req = DELETE →
     let ok := Env (env_clock ev) SaveOk in
     let deleted := module_item ev module item_id req w in
     resp_status deleted.1 = 200 ∧
     deleted.1 = (module_item ok module item_id req w).1 ∧
     SaveError (file_of module) ∈ log deleted.2).
Proof.
  assert (∀ ev module data w0, env_save ev ≠ SaveOk →
            SaveError (file_of module) ∈
              log (save_json (env_save ev) (file_of module) data w0).2) as Hlogged.
  { intros ev module data w0 Hfail.
    destruct (save_json_fails_log _ (file_of module) data w0 Hfail) as [_ ->].
    apply elem_of_app. right. apply list_elem_of_here. }
  split_and!.
  - intros ev module req w recs body Hfail Hst (Hm & Hdata & Hjson) ok created.
    unfold created.
    rewrite (module_list_create ev module req w recs body Hst)
      by (done || by rewrite Hm).
    rewrite (module_list_create ok module req w recs body Hst)
      by (done || by rewrite Hm).
    split_and!; [done | done | by apply Hlogged].
  - intros ev module item_id req w recs body Hfail Hst
      (idx & d & Hfind)%id_present_find (Hm & Hdata & Hjson) ok replaced.
    unfold replaced.
    rewrite (module_item_replace ev module req w item_id recs idx d body
               Hst Hfind) by (done || by rewrite Hm).
    rewrite (module_item_replace ok module req w item_id recs idx d body
               Hst Hfind) by (done || by rewrite Hm).
    split_and!; [done | done | by apply Hlogged].
  - intros ev module item_id req w recs Hfail Hst
      (idx & d & Hfind)%id_present_find Hm ok deleted.
    unfold deleted.
    rewrite (module_item_delete ev module req w item_id recs idx d
               Hst Hfind Hm).
    rewrite (module_item_delete ok module req w item_id recs idx d
               Hst Hfind Hm).
    split_and!; [done | done | by apply Hlogged].
Qed.

Lemma C9_save_failure_still_reports_success_witness :
  let ok := Env (env_clock Examples.ev_disk_full) SaveOk in
  let first := module_list Examples.ev_disk_full "tools"
                 (Examples.post "{}" ∅) Examples.no_files in
  let created := module_list Examples.ev_disk_full "tools"
                   (Examples.post "{}" ∅) Examples.one_tool in
  let replaced := module_item Examples.ev_disk_full "tools" 5
                    (Examples.put "{}" ∅) Examples.one_tool in
  let deleted := module_item Examples.ev_disk_full "tools" 5
                   Examples.delete_request Examples.one_tool in
  (resp_status first.1 = 201 ∧
   first.1 = (module_list ok "tools" (Examples.post "{}" ∅) Examples.no_files).1 ∧
   SaveError (file_of "tools") ∈ log first.2) ∧
  (resp_status created.1 = 201 ∧
   created.1 = (module_list ok "tools" (Examples.post "{}" ∅) Examples.one_tool).1 ∧
   SaveError (file_of "tools") ∈ log created.2) ∧
  (resp_status replaced.1 = 200 ∧
   replaced.1 = (module_item ok "tools" 5 (Examples.put "{}" ∅) Examples.one_tool).1 ∧
   SaveError (file_of "tools") ∈ log replaced.2) ∧
  (resp_status deleted.1 = 200 ∧
   deleted.1 = (module_item ok "tools" 5 Examples.delete_request Examples.one_tool).1 ∧
   SaveError (file_of "tools") ∈ log deleted.2).
Proof.
  intros ok first created replaced deleted. split; [|split; [|split]].
  - apply (proj1 C9_save_failure_still_reports_success Examples.ev_disk_full
             "tools" (Examples.post "{}" ∅) Examples.no_files [] ∅).
    + discriminate.
    + reflexivity.
    + unfold is_create. simpl. split_and!; [reflexivity | discriminate | reflexivity].
  - apply (proj1 C9_save_failure_still_reports_success Examples.ev_disk_full
             "tools" (Examples.post "{}" ∅) Examples.one_tool [Examples.tool5] ∅).
    + discriminate.
    + reflexivity.
    + unfold is_create. simpl. split_and!; [reflexivity | discriminate | reflexivity].
  - apply (proj1 (proj2 C9_save_failure_still_reports_success)
             Examples.ev_disk_full "tools" 5 (Examples.put "{}" ∅)
             Examples.one_tool [Examples.tool5] ∅).
    + discriminate.
    + reflexivity.
    + exists Examples.tool5. split; [apply list_elem_of_here | reflexivity].
    + unfold is_replace. simpl. split_and!; [reflexivity | discriminate | reflexivity].
  - apply (proj2 (proj2 C9_save_failure_still_reports_success)
             Examples.ev_disk_full "tools" 5 Examples.delete_request
             Examples.one_tool [Examples.tool5]).
    + discriminate.
    + reflexivity.
    + exists Examples.tool5. split; [apply list_elem_of_here | reflexivity].
    + reflexivity.
Defined.

(** ** C10: the look-up of the id comes before the body is read *)

(** C10. A PUT or DELETE for an id that no record of the collection has is
    answered 404 "Nicht gefunden", whatever the body is (empty, not
    decodable, or fine) and never 400, and no file changes. *)
Theorem C10_not_found_precedes_body_validation ev module item_id req w recs :
  stored (file_of module) w = records recs →
  ¬ id_present item_id recs →
  req_method req = PUT ∨ req_method req = DELETE →
  let r := module_item ev module item_id req w in
  r.1 = Response (JObj {[ "error" := JStr "Nicht gefunden" ]}) 404 ∧
  resp_status r.1 ≠ 400 ∧
  files r.2 = files w ∧
  stored (file_of module) r.2 = records recs.
Proof.
  intros Hst Habsent%id_absent_find _ r. unfold r.
  rewrite (module_item_absent ev module req w item_id recs Hst Habsent).
  cbn [fst snd]. rewrite load_json_files, stored_load.
  by split_and!.
Qed.

Lemma C10_not_found_precedes_body_validation_witness :
  let r := module_item Examples.ev_ok "tools" 7
             (Request PUT "" (Raises (HTTPException "400 Bad Request")))
             Examples.one_tool in
  r.1 = Response (JObj {[ "error" := JStr "Nicht gefunden" ]}) 404 ∧
  resp_status r.1 ≠ 400 ∧
  files r.2 = files Examples.one_tool ∧
  stored (file_of "tools") r.2 = records [Examples.tool5].
Proof.
  apply (C10_not_found_precedes_body_validation Examples.ev_ok "tools" 7
           (Request PUT "" (Raises (HTTPException "400 Bad Request")))
           Examples.one_tool [Examples.tool5]).
  - reflexivity.
  - intros (d & Hin & Hd). apply list_elem_of_singleton in Hin as ->.
    vm_compute in Hd. discriminate.
  - left. reflexivity.
Defined.

(** * Further properties of the handlers *)

(** ** Every way a request can end *)

(** [module_list], on whatever the file holds: a GET is answered 200 with
    the loaded value; every other request ends in a 400, in a 500 with the
    exception logged, or in a 201 with one write of the collection's file. *)
Lemma module_list_outcome ev module req w :
  let r := module_list ev module req w in
  let lw := (load_json (file_of module) w).2 in
  (req_method req = GET ∧ r = (jsonify (stored (file_of module) w), lw)) ∨
  (req_method req ≠ GET ∧
   ((r = (empty_body_response, lw) ∨ r = (invalid_json_response, lw)) ∨
    (∃ e, r = (jsonify_status
                 (error_body ("Fehler beim Erstellen: " +:+ exn_str e)) 500,
               logger_error (CreateError module e) lw)) ∨
    (∃ rec items',
       Py.append (stored (file_of module) w) (JObj rec) = Ok items' ∧
       r = (jsonify_status (JObj rec) 201,
            (save_json (env_save ev) (file_of module) (JArr items') lw).2)))).
Proof.
  intros r lw. unfold r, lw, module_list. rewrite load_json_stored.
  case_decide as Hm; [by left|]. right. split; [done|].
  unfold module_list_try, get_json.
  case_decide; [by left; left|].
  destruct (req_get_json req) as [v|e]; cbn [mbind result_bind];
    [|right; left; by eexists].
  destruct (Py.iter (stored (file_of module) w)) as [its|e];
    cbn [mbind result_bind];
    [|destruct v; (by left; right) || (right; left; by eexists)].
  destruct (existing_ids its) as [ids|e];
    cbn [mbind result_bind];
    [|destruct v; (by left; right) || (right; left; by eexists)].
  destruct v; cbn [Py.setitem mbind result_bind];
    try (by left; right); try (right; left; by eexists).
  match goal with
  | |- context [Py.append ?a ?b] =>
      destruct (Py.append a b) as [items'|e] eqn:Happ
  end; cbn [mbind result_bind snd];
    [right; right; by do 2 eexists | right; left; by eexists].
Qed.

(** [module_item], on whatever the file holds. *)
Lemma module_item_outcome ev module item_id req w :
  let r := module_item ev module item_id req w in
  let lw := (load_json (file_of module) w).2 in
  r = (internal_error, lw) ∨
  r = (not_found_response, lw) ∨
  (req_method req = GET ∧
   ∃ idx it, Py.getitem (stored (file_of module) w) idx = Ok it ∧
             r = (jsonify it, lw)) ∨
  (req_method req = DELETE ∧
   ∃ idx items',
     Py.pop (stored (file_of module) w) idx = Ok items' ∧
     r = (success_response,
          (save_json (env_save ev) (file_of module) (JArr items') lw).2)) ∨
  (req_method req ≠ GET ∧ req_method req ≠ DELETE ∧
   ((r = (empty_body_response, lw) ∨ r = (invalid_json_response, lw)) ∨
    (∃ e, r = (jsonify_status
                 (error_body ("Fehler beim Aktualisieren: " +:+ exn_str e)) 500,
               logger_error (PutError module item_id e) lw)) ∨
    (∃ rec idx items',
       Py.setitem_index (stored (file_of module) w) idx (JObj rec) = Ok items' ∧
       r = (jsonify (JObj rec),
            (save_json (env_save ev) (file_of module) (JArr items') lw).2)))).
Proof.
  intros r lw. unfold r, lw, module_item. rewrite load_json_stored.
  destruct (Py.iter (stored (file_of module) w)) as [its|e];
    cbn [mbind result_bind]; [|by left].
  destruct (find_index its item_id 0) as [[idx|]|e]; [|by right; left|by left].
  case_decide as Hget.
  { destruct (Py.getitem _ _) eqn:Hitem; [|by left].
    right; right; left. split; [done | by do 2 eexists]. }
  case_decide as Hdel.
  { destruct (Py.pop _ _) eqn:Hpop; [|by left].
    right; right; right; left. split; [done | by do 2 eexists]. }
  do 4 right. split_and!; [done..|].
  unfold module_item_try, get_json.
  case_decide; [by left; left|].
  destruct (req_get_json req) as [v|e]; cbn [mbind result_bind];
    [|right; left; by eexists].
  destruct v; cbn [Py.setitem mbind result_bind];
    try (by left; right); try (right; left; by eexists).
  destruct (Py.setitem_index _ _ _) eqn:Hset; cbn [mbind result_bind snd];
    [right; right; by do 3 eexists | right; left; by eexists].
Qed.

(** ** What the handlers never do *)

(** X4. [module_list] answers 200, 201, 400 or 500 and nothing else; only a 201
    goes with a write, so every other answer leaves all files as they were;
    and a 500 is logged as a failed create. This holds whatever the file of
    the collection holds. *)
Theorem module_list_writes_only_on_201 ev module req w :
  let r := module_list ev module req w in
  (resp_status r.1 = 200 ∨ resp_status r.1 = 201 ∨
   resp_status r.1 = 400 ∨ resp_status r.1 = 500) ∧
  (resp_status r.1 = 200 ↔ req_method req = GET) ∧
  (resp_status r.1 ≠ 201 → files r.2 = files w) ∧
  (resp_status r.1 = 500 →
   ∃ e, log r.2 = log (load_json (file_of module) w).2 ++ [CreateError module e]).
Proof.
  intros r. pose proof (load_json_files (file_of module) w) as Hfiles.
  destruct (module_list_outcome ev module req w)
    as [[Hm Hr]|[Hm [[Hr|Hr]|[[e Hr]|(rec & items' & _ & Hr)]]]];
    fold r in Hr; rewrite Hr; cbn [fst snd resp_status jsonify jsonify_status
      empty_body_response invalid_json_response];
    split_and!; try (intros; done); try tauto; try (split; intros; done).
  intros _. by exists e.
Qed.

(** X5. [module_item] answers 200, 400, 404 or 500 and never 201; a GET and
    every answer other than 200 leave all files as they were; and its 404
    is "Nicht gefunden", not the answer of the handler for unknown
    endpoints. This holds whatever the file of the collection holds. *)
Theorem module_item_writes_only_on_200 ev module item_id req w :
  let r := module_item ev module item_id req w in
  (resp_status r.1 = 200 ∨ resp_status r.1 = 400 ∨
   resp_status r.1 = 404 ∨ resp_status r.1 = 500) ∧
  (req_method req = GET → files r.2 = files w) ∧
  (resp_status r.1 ≠ 200 → files r.2 = files w) ∧
  (resp_status r.1 = 404 → r.1 = not_found_response ∧ r.1 ≠ not_found).
Proof.
  intros r. pose proof (load_json_files (file_of module) w) as Hfiles.
  destruct (module_item_outcome ev module item_id req w)
    as [Hr|[Hr|[[Hm (idx & it & _ & Hr)]|[[Hm (idx & items' & _ & Hr)]|
        (Hm1 & Hm2 & [[Hr|Hr]|[[e Hr]|(rec & idx & items' & _ & Hr)]])]]]];
    fold r in Hr; rewrite Hr; cbn [fst snd resp_status jsonify jsonify_status
      empty_body_response invalid_json_response internal_error
      not_found_response success_response];
    split_and!; try (intros; done); try tauto; try congruence.
Qed.

(** ** Collections do not touch each other *)

Lemma string_length_app (s t : string) :
  String.length (s +:+ t) = (String.length s + String.length t)%nat.
Proof. induction s as [|a s IH]; simpl; [done | by rewrite IH]. Qed.

Lemma string_app_inj_r (s1 s2 t : string) : s1 +:+ t = s2 +:+ t → s1 = s2.
Proof.
  revert s2. induction s1 as [|a s1 IH]; intros [|b s2] Heq.
  - done.
  - apply (f_equal String.length) in Heq.
    change (String b s2 +:+ t) with (String b (s2 +:+ t)) in Heq.
    cbn [String.length] in Heq. rewrite !string_length_app in Heq.
    cbn [String.length] in Heq. lia.
  - apply (f_equal String.length) in Heq.
    change (String a s1 +:+ t) with (String a (s1 +:+ t)) in Heq.
    cbn [String.length] in Heq. rewrite !string_length_app in Heq.
    cbn [String.length] in Heq. lia.
  - change (String a (s1 +:+ t) = String b (s2 +:+ t)) in Heq.
    injection Heq as -> Heq. f_equal. by apply IH.
Qed.

Lemma file_of_inj module module' : file_of module = file_of module' → module = module'.
Proof. apply string_app_inj_r. Qed.

(** X6. Whatever request is handled for one collection, with whatever outcome,
    every other collection lists exactly as before. *)
Theorem other_collections_untouched ev module module' item_id req req' w :
  module ≠ module' →
  stored (file_of module') (module_list ev module req w).2 =
    stored (file_of module') w ∧
  stored (file_of module') (module_item ev module item_id req' w).2 =
    stored (file_of module') w.
Proof.
  intros Hne.
  assert (file_of module' ≠ file_of module) as Hfile
    by (intros Heq%file_of_inj; done).
  by rewrite module_list_other_file, module_item_other_file.
Qed.

Lemma other_collections_untouched_witness :
  stored (file_of "tools")
    (module_list Examples.ev_ok "faq" (Examples.post "{}" ∅) Examples.one_tool).2 =
    stored (file_of "tools") Examples.one_tool ∧
  stored (file_of "tools")
    (module_item Examples.ev_ok "faq" 5 Examples.delete_request
       Examples.one_tool).2 =
    stored (file_of "tools") Examples.one_tool.
Proof.
  apply (other_collections_untouched Examples.ev_ok "faq" "tools" 5
           (Examples.post "{}" ∅) Examples.delete_request Examples.one_tool).
  discriminate.
Defined.

(** ** Listing *)

(** X1. A GET on a collection is answered 200 and changes no file. A file that
    does not exist lists as the empty list and nothing is logged; a file
    that cannot be read lists as the empty list too, and only the log tells
    the two apart; a readable file lists as the JSON value it holds. *)
Theorem list_never_fails ev module req w :
  req_method req = GET →
  let r := module_list ev module req w in
  resp_status r.1 = 200 ∧
  files r.2 = files w ∧
  (files w !! file_of module = None →
   resp_body r.1 = JArr [] ∧ log r.2 = log w) ∧
  (files w !! file_of module = Some Unreadable →
   resp_body r.1 = JArr [] ∧ log r.2 = log w ++ [LoadError (file_of module)]) ∧
  (∀ v, files w !! file_of module = Some (Content v) →
   resp_body r.1 = v ∧ log r.2 = log w).
Proof.
  intros Hm r. unfold r. rewrite module_list_get by done. cbn [fst snd].
  split_and!; [done | apply load_json_files |..];
    unfold stored, load_json; [intros -> | intros -> | intros v ->]; done.
Qed.

Lemma list_never_fails_witness :
  let r := module_list Examples.ev_ok "faq" Examples.get_request
             Examples.one_tool in
  resp_status r.1 = 200 ∧
  files r.2 = files Examples.one_tool ∧
  (files Examples.one_tool !! file_of "faq" = None →
   resp_body r.1 = JArr [] ∧ log r.2 = log Examples.one_tool) ∧
  (files Examples.one_tool !! file_of "faq" = Some Unreadable →
   resp_body r.1 = JArr [] ∧
   log r.2 = log Examples.one_tool ++ [LoadError (file_of "faq")]) ∧
  (∀ v, files Examples.one_tool !! file_of "faq" = Some (Content v) →
   resp_body r.1 = v ∧ log r.2 = log Examples.one_tool).
Proof.
  apply (list_never_fails Examples.ev_ok "faq" Examples.get_request
           Examples.one_tool).
  reflexivity.
Defined.

(** X2. With a GET, each of the fixed routes answers with the list of its own
    collection and changes no file; [/api/telefonbuch/termine] lists
    "termine". *)
Theorem fixed_routes_list_their_collection ev req w :
  req_method req = GET →
  Forall (λ route : (env → request → world → response * world) * string,
            (route.1 ev req w).1 = jsonify (stored (file_of route.2) w) ∧
            files (route.1 ev req w).2 = files w)
    [(get_tools, "tools"); (get_tickets, "tickets");
     (get_contacts, "contacts"); (get_network, "network");
     (get_faq, "faq"); (get_termine, "termine");
     (get_telefonbuch_termine, "termine")].
Proof.
  intros Hm.
  repeat (apply Forall_cons; split;
          [unfold get_tools, get_tickets, get_contacts, get_network, get_faq,
             get_telefonbuch_termine, get_termine, add_termin;
           cbn [fst snd]; rewrite module_list_get by done;
           cbn [fst snd]; split; [done | apply load_json_files]|]).
  apply Forall_nil_2.
Qed.

Lemma fixed_routes_list_their_collection_witness :
  Forall (λ route : (env → request → world → response * world) * string,
            (route.1 Examples.ev_ok Examples.get_request Examples.one_tool).1 =
              jsonify (stored (file_of route.2) Examples.one_tool) ∧
            files (route.1 Examples.ev_ok Examples.get_request
                     Examples.one_tool).2 = files Examples.one_tool)
    [(get_tools, "tools"); (get_tickets, "tickets");
     (get_contacts, "contacts"); (get_network, "network");
     (get_faq, "faq"); (get_termine, "termine");
     (get_telefonbuch_termine, "termine")].
Proof.
  apply (fixed_routes_list_their_collection Examples.ev_ok Examples.get_request
           Examples.one_tool).
  reflexivity.
Defined.

(** X3. A record added through [add_termin] is the last one of the list that
    [get_telefonbuch_termine] returns afterwards. *)
Theorem added_termin_is_listed ev ev' req get_req w recs body :
  stored (file_of "termine") w = records recs →
  is_create req body →
  env_save ev = SaveOk →
  req_method get_req = GET →
  ∃ rec,
    (add_termin ev req w).1 = Response (JObj rec) 201 ∧
    (get_telefonbuch_termine ev' get_req (add_termin ev req w).2).1 =
      Response (records (recs ++ [rec])) 200.
Proof.
  intros Hst (Hm & Hdata & Hjson) Hsave Hget.
  exists (new_record ev "termine" recs body).
  unfold get_telefonbuch_termine, get_termine, add_termin.
  rewrite (module_list_create ev "termine" req w recs body Hst)
    by (done || by rewrite Hm).
  cbn [fst snd]. split; [done|].
  rewrite module_list_get by done. cbn [fst].
  by rewrite Hsave, stored_save_ok.
Qed.

Lemma added_termin_is_listed_witness :
  ∃ rec,
    (add_termin Examples.ev_ok (Examples.post "{}" ∅) Examples.no_files).1 =
      Response (JObj rec) 201 ∧
    (get_telefonbuch_termine Examples.ev_ok Examples.get_request
       (add_termin Examples.ev_ok (Examples.post "{}" ∅) Examples.no_files).2).1 =
      Response (records ([] ++ [rec])) 200.
Proof.
  apply (added_termin_is_listed Examples.ev_ok Examples.ev_ok
           (Examples.post "{}" ∅) Examples.get_request Examples.no_files [] ∅).
  - reflexivity.
  - unfold is_create. simpl. split_and!; [reflexivity | discriminate | reflexivity].
  - reflexivity.
  - reflexivity.
Defined.

(** ** Creating *)

(** X7. A create on a collection whose file is missing or cannot be read starts
    at id 1, and with the write going through the file then holds the new
    record and nothing else: what an unreadable file held is overwritten. *)
Theorem create_on_lost_file_starts_over ev module req w body :
  files w !! file_of module = None ∨
  files w !! file_of module = Some Unreadable →
  is_create req body →
  let r := module_list ev module req w in
  ∃ rec,
    r.1 = Response (JObj rec) 201 ∧
    rec !! "id" = Some (JInt 1) ∧
    (env_save ev = SaveOk →
     files r.2 = <[file_of module := Content (records [rec])]> (files w)).
Proof.
  intros Hfile (Hm & Hdata & Hjson) r.
  assert (stored (file_of module) w = records []) as Hst
    by (unfold stored, load_json; by destruct Hfile as [-> | ->]).
  exists (new_record ev module [] body). unfold r.
  rewrite (module_list_create ev module req w [] body Hst)
    by (done || by rewrite Hm).
  cbn [fst snd]. split_and!; [done | apply new_record_id |].
  intros ->. simpl. by rewrite load_json_files.
Qed.

Lemma create_on_lost_file_starts_over_witness :
  let w := World {[ "faq.json" := Unreadable ]} [] in
  let r := module_list Examples.ev_ok "faq" (Examples.post "{}" ∅) w in
  ∃ rec,
    r.1 = Response (JObj rec) 201 ∧
    rec !! "id" = Some (JInt 1) ∧
    (env_save Examples.ev_ok = SaveOk →
     files r.2 = <[file_of "faq" := Content (records [rec])]> (files w)).
Proof.
  apply (create_on_lost_file_starts_over Examples.ev_ok "faq"
           (Examples.post "{}" ∅) (World {[ "faq.json" := Unreadable ]} []) ∅).
  - right. reflexivity.
  - unfold is_create. simpl. split_and!; [reflexivity | discriminate | reflexivity].
Defined.

Lemma setdefault_keeps k k' v v' d :
  d !! k = Some v → Py.setdefault k' v' d !! k = Some v.
Proof.
  intros Hk. unfold Py.setdefault. destruct (d !! k') eqn:Hk'; [done|].
  rewrite lookup_insert_ne; [done|]. intros ->. congruence.
Qed.

Lemma new_record_keeps ev module recs body k v :
  k ≠ "id" → body !! k = Some v → new_record ev module recs body !! k = Some v.
Proof.
  intros Hk Hv. unfold new_record.
  assert ((<["id" := JInt (next_free_id (omap int_id recs) 1)]> body) !! k = Some v)
    as Hv1 by by rewrite lookup_insert_ne.
  set (d1 := <["id" := JInt (next_free_id (omap int_id recs) 1)]> body) in *.
  assert (match d1 !! "created_at" with
          | Some _ => d1
          | None => <["created_at" := JStr (get_timestamp_iso (env_clock ev))]> d1
          end !! k = Some v) as Hv2.
  { destruct (d1 !! "created_at") eqn:Hc; [done|].
    rewrite lookup_insert_ne; [done|]. intros <-. congruence. }
  repeat case_decide; unfold tools_defaults, faq_defaults;
    by repeat apply setdefault_keeps.
Qed.

(** X8. A create never drops or changes a field of the body other than [id]:
    [created_at] and the default fields are only filled in where the body
    has none. The only keys it adds are [id], [created_at] and the five
    default fields, and outside "tools" and "faq" only the first two. *)
Theorem create_keeps_body_fields ev module req w recs body :
  stored (file_of module) w = records recs →
  is_create req body →
  ∃ rec,
    (module_list ev module req w).1 = Response (JObj rec) 201 ∧
    (∀ k v, k ≠ "id" → body !! k = Some v → rec !! k = Some v) ∧
    (∀ k, body !! k = None → is_Some (rec !! k) →
          k ∈ ["id"; "created_at"; "admin"; "autostart"; "tags"; "favorite";
               "attachments"]) ∧
    (module ≠ "tools" → module ≠ "faq" →
     ∀ k, k ≠ "id" → k ≠ "created_at" → rec !! k = body !! k).
Proof.
  intros Hst (Hm & Hdata & Hjson). exists (new_record ev module recs body).
  rewrite (module_list_create ev module req w recs body Hst)
    by (done || by rewrite Hm).
  split_and!; [done | | |].
  - intros k v. apply new_record_keeps.
  - intros k Hnone Hsome.
    destruct (decide (k ∈ ["id"; "created_at"; "admin"; "autostart"; "tags";
                            "favorite"; "attachments"])) as [|Hout]; [done|].
    rewrite new_record_other, Hnone in Hsome;
      [by destruct Hsome | intros ->; apply Hout; set_solver..].
  - intros Htools Hfaq k Hid Hcreated. unfold new_record.
    rewrite !decide_False by done.
    case_match; by rewrite ?lookup_insert_ne by done.
Qed.

Lemma create_keeps_body_fields_witness :
  ∃ rec,
    (module_list Examples.ev_ok "tools"
       (Examples.post "{}" {[ "name" := JStr "x" ]}) Examples.one_tool).1 =
      Response (JObj rec) 201 ∧
    (∀ k v, k ≠ "id" →
       ({[ "name" := JStr "x" ]} : gmap string json) !! k = Some v →
       rec !! k = Some v) ∧
    (∀ k, ({[ "name" := JStr "x" ]} : gmap string json) !! k = None →
          is_Some (rec !! k) →
          k ∈ ["id"; "created_at"; "admin"; "autostart"; "tags"; "favorite";
               "attachments"]) ∧
    ("tools" ≠ "tools" → "tools" ≠ "faq" →
     ∀ k, k ≠ "id" → k ≠ "created_at" →
          rec !! k = ({[ "name" := JStr "x" ]} : gmap string json) !! k).
Proof.
  apply (create_keeps_body_fields Examples.ev_ok "tools"
           (Examples.post "{}" {[ "name" := JStr "x" ]}) Examples.one_tool
           [Examples.tool5]).
  - reflexivity.
  - unfold is_create. simpl. split_and!; [reflexivity | discriminate | reflexivity].
Defined.

(** ** The loop again: uniqueness and a bound *)

(** The loop value is the only [k] from [n] on that is not in the list
    while everything from [n] up to it is. *)
Lemma next_free_id_unique existing n k :
  n ≤ k → k ∉ existing → (∀ m, n ≤ m < k → m ∈ existing) →
  next_free_id existing n = k.
Proof.
  intros Hle Hfree Hbelow.
  destruct (next_free_id_spec existing n) as (Hle' & Hfree' & Hbelow').
  destruct (Z.lt_trichotomy (next_free_id existing n) k) as [Hlt|[Heq|Hlt]];
    [|done|].
  - destruct Hfree'. apply Hbelow. lia.
  - destruct Hfree. apply Hbelow'. lia.
Qed.

(** With [k] ids in the list, the loop entered at 1 ends at [k + 1] at the
    latest. *)
Lemma next_free_id_bound existing :
  1 ≤ next_free_id existing 1 ≤ Z.of_nat (length existing) + 1.
Proof.
  destruct (next_free_id_spec existing 1) as (Hle & _ & Hbelow).
  split; [done|].
  assert (seqZ 1 (next_free_id existing 1 - 1) ⊆+ existing) as Hsub.
  { apply NoDup_submseteq; [apply NoDup_seqZ|].
    intros m Hm%elem_of_seqZ. apply Hbelow. lia. }
  apply submseteq_length in Hsub. rewrite length_seqZ in Hsub. lia.
Qed.

Lemma length_omap_le {A B} (f : A → option B) (l : list A) :
  (length (omap f l) ≤ length l)%nat.
Proof.
  induction l as [|x l IH]; [done|]. cbn [omap list_omap].
  destruct (f x); simpl; lia.
Qed.

(** X9. The id a create assigns is at most the number of records plus one: the
    ids of a collection that is only ever created into do not run away. *)
Theorem create_id_at_most_count_plus_one ev module req w recs body :
  stored (file_of module) w = records recs →
  is_create req body →
  ∃ new_id rec,
    (module_list ev module req w).1 = Response (JObj rec) 201 ∧
    rec !! "id" = Some (JInt new_id) ∧
    1 ≤ new_id ≤ Z.of_nat (length recs) + 1.
Proof.
  intros Hst (Hm & Hdata & Hjson).
  exists (next_free_id (omap int_id recs) 1), (new_record ev module recs body).
  rewrite (module_list_create ev module req w recs body Hst)
    by (done || by rewrite Hm).
  split_and!; [done | apply new_record_id |..];
    pose proof (next_free_id_bound (omap int_id recs));
    pose proof (length_omap_le int_id recs); lia.
Qed.

Lemma create_id_at_most_count_plus_one_witness :
  ∃ new_id rec,
    (module_list Examples.ev_ok "tools" (Examples.post "{}" ∅)
       Examples.one_tool).1 = Response (JObj rec) 201 ∧
    rec !! "id" = Some (JInt new_id) ∧
    1 ≤ new_id ≤ Z.of_nat (length [Examples.tool5]) + 1.
Proof.
  apply (create_id_at_most_count_plus_one Examples.ev_ok "tools"
           (Examples.post "{}" ∅) Examples.one_tool [Examples.tool5] ∅).
  - reflexivity.
  - unfold is_create. simpl. split_and!; [reflexivity | discriminate | reflexivity].
Defined.

(** ** How the operations compose *)

Lemma NoDup_first (ids : list Z) i n :
  NoDup ids → ids !! i = Some n → ∀ j, (j < i)%nat → ids !! j ≠ Some n.
Proof.
  intros Hnodup Hi j Hj Hjn.
  pose proof (NoDup_lookup ids i j n Hnodup Hi Hjn). lia.
Qed.

Lemma NoDup_delete_gone (ids : list Z) i n :
  NoDup ids → ids !! i = Some n → n ∉ delete i ids.
Proof.
  intros Hnodup Hi [j Hj]%list_elem_of_lookup.
  destruct (decide (j < i)%nat) as [Hlt|Hge].
  - rewrite list_lookup_delete_lt in Hj by done.
    pose proof (NoDup_lookup ids i j n Hnodup Hi Hj). lia.
  - rewrite list_lookup_delete_ge in Hj by lia.
    pose proof (NoDup_lookup ids i (S j) n Hnodup Hi Hj). lia.
Qed.

Lemma delete_keeps_others (ids : list Z) i n m :
  ids !! i = Some n → m ≠ n → m ∈ ids → m ∈ delete i ids.
Proof.
  intros Hi Hne [j Hj]%list_elem_of_lookup.
  assert (j ≠ i) as Hji by (intros ->; congruence).
  destruct (decide (j < i)%nat) as [Hlt|Hge].
  - apply (list_elem_of_lookup_2 _ j). by rewrite list_lookup_delete_lt.
  - destruct j as [|j]; [lia|].
    apply (list_elem_of_lookup_2 _ j). rewrite list_lookup_delete_ge by lia. done.
Qed.

(** X10. In a collection whose ids are JSON integers, a fetch of the id that a
    create has just answered returns the created record. *)
Theorem create_then_fetch ev ev' module req get_req w recs ids body :
  stored (file_of module) w = records recs →
  ids_are recs ids →
  is_create req body →
  env_save ev = SaveOk →
  req_method get_req = GET →
  let created := module_list ev module req w in
  ∃ new_id rec,
    created.1 = Response (JObj rec) 201 ∧
    rec !! "id" = Some (JInt new_id) ∧
    (module_item ev' module new_id get_req created.2).1 = Response (JObj rec) 200.
Proof.
  intros Hst Hids Hreq Hsave Hget created.
  destruct (create_step ev module req w recs ids body Hst Hids Hreq Hsave)
    as (rec & Hresp & Hid & Hst' & Hids').
  fold created in Hresp, Hst'.
  exists (next_free_id ids 1), rec. split_and!; [done..|].
  destruct (next_free_id_spec ids 1) as (_ & Hfree & _).
  destruct (ids_are_find_first (recs ++ [rec]) (ids ++ [next_free_id ids 1])
              (next_free_id ids 1) (length ids) Hids') as [d Hfind].
  { by rewrite list_lookup_middle. }
  { intros j Hj Hjn. rewrite lookup_app_l in Hjn by done.
    apply Hfree. by eapply list_elem_of_lookup_2. }
  rewrite (module_item_get ev' module get_req created.2 _ _ _ d Hst' Hfind Hget).
  apply list_find_Some in Hfind as (Hlookup & _).
  rewrite <- (Forall2_length _ _ _ Hids) in Hlookup.
  rewrite list_lookup_middle in Hlookup by done.
  injection Hlookup as <-. done.
Qed.

Lemma create_then_fetch_witness :
  let created := module_list Examples.ev_ok "tools" (Examples.post "{}" ∅)
                   Examples.one_tool in
  ∃ new_id rec,
    created.1 = Response (JObj rec) 201 ∧
    rec !! "id" = Some (JInt new_id) ∧
    (module_item Examples.ev_ok "tools" new_id Examples.get_request
       created.2).1 = Response (JObj rec) 200.
Proof.
  apply (create_then_fetch Examples.ev_ok Examples.ev_ok "tools"
           (Examples.post "{}" ∅) Examples.get_request Examples.one_tool
           [Examples.tool5] [5] ∅).
  - reflexivity.
  - repeat constructor.
  - unfold is_create. simpl. split_and!; [reflexivity | discriminate | reflexivity].
  - reflexivity.
  - reflexivity.
Defined.

(** X11. In a collection whose ids are JSON integers, deleting the id that a
    create has just answered gives back the list as it was before the
    create. *)
Theorem create_then_delete_restores ev ev' module req del_req w recs ids body :
  stored (file_of module) w = records recs →
  ids_are recs ids →
  is_create req body →
  req_method del_req = DELETE →
  env_save ev = SaveOk → env_save ev' = SaveOk →
  let created := module_list ev module req w in
  ∃ new_id rec,
    created.1 = Response (JObj rec) 201 ∧
    rec !! "id" = Some (JInt new_id) ∧
    (module_item ev' module new_id del_req created.2).1 = success_response ∧
    stored (file_of module) (module_item ev' module new_id del_req created.2).2 =
      records recs.
Proof.
  intros Hst Hids Hreq Hdel Hsave Hsave' created.
  destruct (create_step ev module req w recs ids body Hst Hids Hreq Hsave)
    as (rec & Hresp & Hid & Hst' & Hids').
  fold created in Hresp, Hst'.
  exists (next_free_id ids 1), rec. split_and!; [done..| |];
    destruct (next_free_id_spec ids 1) as (_ & Hfree & _);
    destruct (delete_step ev' module del_req created.2 _ _
                (next_free_id ids 1) (length ids) Hst' Hids')
      as (Hresp' & Hst'' & _); try done.
  - by rewrite list_lookup_middle.
  - intros j Hj Hjn. rewrite lookup_app_l in Hjn by done.
    apply Hfree. by eapply list_elem_of_lookup_2.
  - by rewrite list_lookup_middle.
  - intros j Hj Hjn. rewrite lookup_app_l in Hjn by done.
    apply Hfree. by eapply list_elem_of_lookup_2.
  - rewrite Hst''. rewrite <- (Forall2_length _ _ _ Hids).
    by rewrite delete_middle, app_nil_r.
Qed.

Lemma create_then_delete_restores_witness :
  let created := module_list Examples.ev_ok "tools" (Examples.post "{}" ∅)
                   Examples.one_tool in
  ∃ new_id rec,
    created.1 = Response (JObj rec) 201 ∧
    rec !! "id" = Some (JInt new_id) ∧
    (module_item Examples.ev_ok "tools" new_id Examples.delete_request
       created.2).1 = success_response ∧
    stored (file_of "tools")
      (module_item Examples.ev_ok "tools" new_id Examples.delete_request
         created.2).2 = records [Examples.tool5].
Proof.
  apply (create_then_delete_restores Examples.ev_ok Examples.ev_ok "tools"
           (Examples.post "{}" ∅) Examples.delete_request Examples.one_tool
           [Examples.tool5] [5] ∅).
  - reflexivity.
  - repeat constructor.
  - unfold is_create. simpl. split_and!; [reflexivity | discriminate | reflexivity].
  - reflexivity.
  - reflexivity.
  - reflexivity.
Defined.

(** X12. In a collection with unique integer ids, an id that has been deleted is
    gone: every later GET, PUT or DELETE for it is answered 404. *)
Theorem delete_then_not_found ev ev' module item_id del_req req w recs ids :
  stored (file_of module) w = records recs →
  ids_are recs ids → NoDup ids →
  item_id ∈ ids →
  req_method del_req = DELETE →
  env_save ev = SaveOk →
  let deleted := module_item ev module item_id del_req w in
  deleted.1 = success_response ∧
  (module_item ev' module item_id req deleted.2).1 = not_found_response.
Proof.
  intros Hst Hids Hnodup [i Hi]%list_elem_of_lookup Hdel Hsave deleted.
  destruct (delete_step ev module del_req w recs ids item_id i Hst Hids Hi
              (NoDup_first ids i item_id Hnodup Hi) Hdel Hsave)
    as (Hresp & Hst' & Hids').
  fold deleted in Hresp, Hst'. split; [done|].
  pose proof (ids_are_find (delete i recs) (delete i ids) item_id Hids') as Hfind.
  destruct (list_find (has_id item_id) (delete i recs)) as [[j d]|] eqn:Hf.
  - destruct Hfind as (_ & Hj & _).
    destruct (NoDup_delete_gone ids i item_id Hnodup Hi).
    by eapply list_elem_of_lookup_2.
  - by rewrite (module_item_absent ev' module req deleted.2 item_id _ Hst' Hf).
Qed.

Lemma delete_then_not_found_witness :
  let deleted := module_item Examples.ev_ok "tools" 5 Examples.delete_request
                   Examples.one_tool in
  deleted.1 = success_response ∧
  (module_item Examples.ev_ok "tools" 5 Examples.get_request deleted.2).1 =
    not_found_response.
Proof.
  apply (delete_then_not_found Examples.ev_ok Examples.ev_ok "tools" 5
           Examples.delete_request Examples.get_request Examples.one_tool
           [Examples.tool5] [5]).
  - reflexivity.
  - repeat constructor.
  - apply NoDup_singleton.
  - apply list_elem_of_here.
  - reflexivity.
  - reflexivity.
Defined.

(** X13. In a collection with unique integer ids in which 1, ..., k are all
    taken, the create that follows the delete of [k] answers [k] again: a
    freed id is handed out anew, to a different record. *)
Theorem deleted_id_is_reused ev ev' module k del_req req w recs ids body :
  stored (file_of module) w = records recs →
  ids_are recs ids → NoDup ids →
  1 ≤ k → (∀ m, 1 ≤ m ≤ k → m ∈ ids) →
  req_method del_req = DELETE → is_create req body →
  env_save ev = SaveOk →
  let deleted := module_item ev module k del_req w in
  ∃ rec,
    (module_list ev' module req deleted.2).1 = Response (JObj rec) 201 ∧
    rec !! "id" = Some (JInt k).
Proof.
  intros Hst Hids Hnodup Hk Hall Hdel Hreq Hsave deleted.
  assert (k ∈ ids) as [i Hi]%list_elem_of_lookup by (apply Hall; lia).
  destruct (delete_step ev module del_req w recs ids k i Hst Hids Hi
              (NoDup_first ids i k Hnodup Hi) Hdel Hsave)
    as (_ & Hst' & Hids').
  fold deleted in Hst'. destruct Hreq as (Hm & Hdata & Hjson).
  exists (new_record ev' module (delete i recs) body).
  rewrite (module_list_create ev' module req deleted.2 _ body Hst')
    by (done || by rewrite Hm).
  split; [done|]. rewrite new_record_id, (ids_are_omap _ _ Hids').
  do 2 f_equal. apply next_free_id_unique; [done | |].
  - by apply NoDup_delete_gone.
  - intros m Hm'. apply (delete_keeps_others ids i k m Hi); [lia|].
    apply Hall. lia.
Qed.

Lemma deleted_id_is_reused_witness :
  let w := World {[ "tools.json" :=
                      Content (records [{[ "id" := JInt 2 ]}; {[ "id" := JInt 1 ]};
                                        {[ "id" := JInt 3 ]}]) ]} [] in
  let deleted := module_item Examples.ev_ok "tools" 2 Examples.delete_request w in
  ∃ rec,
    (module_list Examples.ev_ok "tools" (Examples.post "{}" ∅) deleted.2).1 =
      Response (JObj rec) 201 ∧
    rec !! "id" = Some (JInt 2).
Proof.
  apply (deleted_id_is_reused Examples.ev_ok Examples.ev_ok "tools" 2
           Examples.delete_request (Examples.post "{}" ∅)
           (World {[ "tools.json" :=
                       Content (records [{[ "id" := JInt 2 ]}; {[ "id" := JInt 1 ]};
                                         {[ "id" := JInt 3 ]}]) ]} [])
           [{[ "id" := JInt 2 ]}; {[ "id" := JInt 1 ]}; {[ "id" := JInt 3 ]}]
           [2; 1; 3] ∅).
  - reflexivity.
  - repeat constructor.
  - apply NoDup_cons. split; [|apply NoDup_cons; split; [|apply NoDup_singleton]].
    + intros [H|[H|H]%elem_of_cons]%elem_of_cons;
        [discriminate.. | by apply elem_of_nil in H].
    + intros H%list_elem_of_singleton. discriminate.
  - lia.
  - intros m Hm. assert (m = 1 ∨ m = 2) as [-> | ->] by lia.
    + apply list_elem_of_further, list_elem_of_here.
    + apply list_elem_of_here.
  - reflexivity.
  - unfold is_create. simpl. split_and!; [reflexivity | discriminate | reflexivity].
  - reflexivity.
Defined.

(** X14. A fetch after a replace returns the record that the replace stored,
    whatever else the collection holds. *)
Theorem replace_then_fetch ev ev' module item_id req get_req w recs body :
  stored (file_of module) w = records recs →
  id_present item_id recs →
  is_replace req body →
  env_save ev = SaveOk →
  req_method get_req = GET →
  let replaced := module_item ev module item_id req w in
  replaced.1 = Response (JObj (<["id" := JInt item_id]> body)) 200 ∧
  (module_item ev' module item_id get_req replaced.2).1 = replaced.1.
Proof.
  intros Hst (idx & old & Hfind)%id_present_find (Hm & Hdata & Hjson) Hsave Hget
    replaced.
  assert (replaced =
          (jsonify (JObj (<["id" := JInt item_id]> body)),
           (save_json (env_save ev) (file_of module)
              (records (<[idx := <["id" := JInt item_id]> body]> recs))
              (load_json (file_of module) w).2).2)) as Hrep
    by (apply (module_item_replace ev module req w item_id recs idx old body
                 Hst Hfind); done || by rewrite Hm).
  rewrite Hrep. cbn [fst snd]. split; [done|].
  rewrite Hsave.
  apply list_find_Some in Hfind as (Hlookup & _ & Hfirst).
  erewrite (module_item_get ev' module get_req _ item_id
              (<[idx := <["id" := JInt item_id]> body]> recs) idx
              (<["id" := JInt item_id]> body)); [done | | | done].
  - apply stored_save_ok.
  - apply list_find_Some. split_and!.
    + apply list_lookup_insert_eq. by eapply lookup_lt_Some.
    + unfold has_id, Py.get. rewrite lookup_insert_eq. simpl. apply Z.eqb_refl.
    + intros j d Hj Hlt. rewrite list_lookup_insert_ne in Hj by lia.
      by eapply Hfirst.
Qed.

Lemma replace_then_fetch_witness :
  let replaced := module_item Examples.ev_ok "tools" 5
                    (Examples.put "{}" {[ "name" := JStr "new" ]})
                    Examples.one_tool in
  replaced.1 =
    Response (JObj (<["id" := JInt 5]> {[ "name" := JStr "new" ]})) 200 ∧
  (module_item Examples.ev_ok "tools" 5 Examples.get_request replaced.2).1 =
    replaced.1.
Proof.
  apply (replace_then_fetch Examples.ev_ok Examples.ev_ok "tools" 5
           (Examples.put "{}" {[ "name" := JStr "new" ]}) Examples.get_request
           Examples.one_tool [Examples.tool5]).
  - reflexivity.
  - exists Examples.tool5. split; [apply list_elem_of_here | reflexivity].
  - unfold is_replace. simpl. split_and!; [reflexivity | discriminate | reflexivity].
  - reflexivity.
  - reflexivity.
Defined.

(** X15. The same replace sent twice answers the same and leaves the files as
    the first one left them. *)
Theorem replace_twice_is_replace_once ev module item_id req w recs body :
  stored (file_of module) w = records recs →
  id_present item_id recs →
  is_replace req body →
  env_save ev = SaveOk →
  let once := module_item ev module item_id req w in
  let twice := module_item ev module item_id req once.2 in
  twice.1 = once.1 ∧ files twice.2 = files once.2.
Proof.
  intros Hst (idx & old & Hfind)%id_present_find (Hm & Hdata & Hjson) Hsave
    once twice.
  assert (once =
          (jsonify (JObj (<["id" := JInt item_id]> body)),
           (save_json (env_save ev) (file_of module)
              (records (<[idx := <["id" := JInt item_id]> body]> recs))
              (load_json (file_of module) w).2).2)) as Honce
    by (apply (module_item_replace ev module req w item_id recs idx old body
                 Hst Hfind); done || by rewrite Hm).
  assert (stored (file_of module) once.2 =
          records (<[idx := <["id" := JInt item_id]> body]> recs)) as Hst'
    by (rewrite Honce, Hsave; apply stored_save_ok).
  assert (list_find (has_id item_id)
            (<[idx := <["id" := JInt item_id]> body]> recs) =
          Some (idx, <["id" := JInt item_id]> body)) as Hfind'.
  { apply list_find_Some in Hfind as (Hlookup & _ & Hfirst).
    apply list_find_Some. split_and!.
    - apply list_lookup_insert_eq. by eapply lookup_lt_Some.
    - unfold has_id, Py.get. rewrite lookup_insert_eq. simpl. apply Z.eqb_refl.
    - intros j d Hj Hlt. rewrite list_lookup_insert_ne in Hj by lia.
      by eapply Hfirst. }
  unfold twice.
  rewrite (module_item_replace ev module req once.2 item_id _ idx _ body
             Hst' Hfind') by (done || by rewrite Hm).
  rewrite list_insert_insert_eq. rewrite Honce at 2 4. cbn [fst snd].
  split; [done|]. rewrite Hsave. simpl.
  rewrite load_json_files, Honce, Hsave. simpl.
  by rewrite insert_insert_eq.
Qed.

Lemma replace_twice_is_replace_once_witness :
  let once := module_item Examples.ev_ok "tools" 5
                (Examples.put "{}" {[ "name" := JStr "new" ]})
                Examples.one_tool in
  let twice := module_item Examples.ev_ok "tools" 5
                 (Examples.put "{}" {[ "name" := JStr "new" ]}) once.2 in
  twice.1 = once.1 ∧ files twice.2 = files once.2.
Proof.
  apply (replace_twice_is_replace_once Examples.ev_ok "tools" 5
           (Examples.put "{}" {[ "name" := JStr "new" ]}) Examples.one_tool
           [Examples.tool5] {[ "name" := JStr "new" ]}).
  - reflexivity.
  - exists Examples.tool5. split; [apply list_elem_of_here | reflexivity].
  - unfold is_replace. simpl. split_and!; [reflexivity | discriminate | reflexivity].
  - reflexivity.
Defined.

(** ** Bodies and files of the wrong shape *)

(** X16. A body that decodes to JSON other than an object or [null] (a list, a
    number, a string, a boolean) is answered 500, not 400: by create whatever
    the file of the collection holds, and by replace of a present id. The
    assignment of [id] raises inside the [try], unless reading the stored
    list has raised there before; the exception is logged and no file
    changes. *)
Theorem body_that_is_no_object_is_500 :
  (∀ ev module req w v,
     req_method req = POST → req_data req ≠ "" →
     req_get_json req = Returns v → v ≠ JNull → (∀ d, v ≠ JObj d) →
     let created := module_list ev module req w in
     resp_status created.1 = 500 ∧ files created.2 = files w ∧
     ∃ e, log created.2 =
          log (load_json (file_of module) w).2 ++ [CreateError module e]) ∧
  (∀ ev module item_id req w recs v,
     stored (file_of module) w = records recs →
     id_present item_id recs →
     req_method req = PUT → req_data req ≠ "" →
     req_get_json req = Returns v → v ≠ JNull → (∀ d, v ≠ JObj d) →
     let replaced := module_item ev module item_id req w in
     resp_status replaced.1 = 500 ∧ files replaced.2 = files w ∧
     ∃ e, log replaced.2 =
          log (load_json (file_of module) w).2 ++ [PutError module item_id e]).
Proof.
  split.
  - intros ev module req w v Hpost Hdata Hjson Hnull Hobj created.
    pose proof (load_json_files (file_of module) w) as Hfiles.
    unfold created, module_list. rewrite load_json_stored.
    rewrite decide_False by by rewrite Hpost.
    unfold module_list_try, get_json. rewrite decide_False by done.
    rewrite Hjson. cbn [mbind result_bind].
    destruct (Py.iter (stored (file_of module) w)) as [its|e1];
      cbn [mbind result_bind];
      [destruct (existing_ids its) as [existing|e2]; cbn [mbind result_bind]|];
      (destruct v; try done; try (by destruct (Hobj d));
         cbn; (split_and!; [done | done | by eexists])).
  - intros ev module item_id req w recs v Hst (idx & d & Hfind)%id_present_find
      Hput Hdata Hjson Hnull Hobj replaced.
    pose proof (load_json_files (file_of module) w) as Hfiles.
    unfold replaced.
    rewrite (module_item_put_dispatch ev module req w item_id recs idx d)
      by (done || by rewrite Hput).
    unfold module_item_try, get_json. rewrite decide_False by done.
    rewrite Hjson.
    destruct v; try done; try (by destruct (Hobj d0));
      cbn; (split_and!; [done | done | by eexists]).
Qed.

Lemma body_that_is_no_object_is_500_witness :
  let first := module_list Examples.ev_ok "tools"
                 (Request POST "[1]" (Returns (JArr [JInt 1])))
                 Examples.no_files in
  let created := module_list Examples.ev_ok "tools"
                   (Request POST "true" (Returns (JBool true)))
                   Examples.one_tool in
  let replaced := module_item Examples.ev_ok "tools" 5
                    (Request PUT "7" (Returns (JInt 7))) Examples.one_tool in
  (resp_status first.1 = 500 ∧ files first.2 = files Examples.no_files ∧
   ∃ e, log first.2 =
        log (load_json (file_of "tools") Examples.no_files).2 ++
        [CreateError "tools" e]) ∧
  (resp_status created.1 = 500 ∧ files created.2 = files Examples.one_tool ∧
   ∃ e, log created.2 =
        log (load_json (file_of "tools") Examples.one_tool).2 ++
        [CreateError "tools" e]) ∧
  (resp_status replaced.1 = 500 ∧ files replaced.2 = files Examples.one_tool ∧
   ∃ e, log replaced.2 =
        log (load_json (file_of "tools") Examples.one_tool).2 ++
        [PutError "tools" 5 e]).
Proof.
  intros first created replaced. split; [|split].
  - apply (proj1 body_that_is_no_object_is_500 Examples.ev_ok "tools"
             (Request POST "[1]" (Returns (JArr [JInt 1])))
             Examples.no_files (JArr [JInt 1])).
    + reflexivity.
    + discriminate.
    + reflexivity.
    + discriminate.
    + discriminate.
  - apply (proj1 body_that_is_no_object_is_500 Examples.ev_ok "tools"
             (Request POST "true" (Returns (JBool true)))
             Examples.one_tool (JBool true)).
    + reflexivity.
    + discriminate.
    + reflexivity.
    + discriminate.
    + discriminate.
  - apply (proj2 body_that_is_no_object_is_500 Examples.ev_ok "tools" 5
             (Request PUT "7" (Returns (JInt 7)))
             Examples.one_tool [Examples.tool5] (JInt 7)).
    + reflexivity.
    + exists Examples.tool5. split; [apply list_elem_of_here | reflexivity].
    + reflexivity.
    + discriminate.
    + reflexivity.
    + discriminate.
    + discriminate.
Defined.





(** X18. A file that holds JSON other than a list is never written by a request
    for its collection: a GET returns the value as it is, every other
    request to [module_list] is answered 400 or 500, and [module_item]
    answers 404 or 500. *)
Theorem file_that_is_no_list_is_never_written ev module item_id req req' w :
  (∀ l, stored (file_of module) w ≠ JArr l) →
  let listed := module_list ev module req w in
  let item := module_item ev module item_id req' w in
  files listed.2 = files w ∧ files item.2 = files w ∧
  (req_method req ≠ GET →
   resp_status listed.1 = 400 ∨ resp_status listed.1 = 500) ∧
  (resp_status item.1 = 404 ∨ resp_status item.1 = 500).
Proof.
  intros Hv listed item.
  pose proof (load_json_files (file_of module) w) as Hfiles.
  assert (files listed.2 = files w ∧
          (req_method req ≠ GET →
           resp_status listed.1 = 400 ∨ resp_status listed.1 = 500)) as [Hl1 Hl2].
  { destruct (module_list_outcome ev module req w)
      as [[Hm Hr]|[Hm [[Hr|Hr]|[[e Hr]|(rec & items' & Happ & Hr)]]]];
      fold listed in Hr; rewrite Hr; cbn; try (split; [done | tauto]).
    destruct (stored (file_of module) w) eqn:Hs; try discriminate.
    by destruct (Hv l). }
  assert (item = (internal_error, (load_json (file_of module) w).2) ∨
          item = (not_found_response, (load_json (file_of module) w).2))
    as Hitem.
  { unfold item, module_item. rewrite load_json_stored.
    destruct (Py.iter (stored (file_of module) w)) as [its|e] eqn:Hiter;
      cbn [mbind result_bind]; [|by left].
    destruct (find_index its item_id 0) as [[idx|]|e] eqn:Hfind;
      [|by right|by left].
    destruct (find_index_list _ _ _ _ Hiter Hfind) as [Hlist _].
    by destruct (Hv its). }
  split_and!; [done | | done |];
    destruct Hitem as [-> | ->]; cbn; auto.
Qed.

Lemma file_that_is_no_list_is_never_written_witness :
  let w := World {[ "tools.json" := Content (JObj {[ "id" := JInt 1 ]}) ]} [] in
  let listed := module_list Examples.ev_ok "tools" (Examples.post "{}" ∅) w in
  let item := module_item Examples.ev_ok "tools" 1 Examples.delete_request w in
  files listed.2 = files w ∧ files item.2 = files w ∧
  (req_method (Examples.post "{}" ∅) ≠ GET →
   resp_status listed.1 = 400 ∨ resp_status listed.1 = 500) ∧
  (resp_status item.1 = 404 ∨ resp_status item.1 = 500).
Proof.
  apply (file_that_is_no_list_is_never_written Examples.ev_ok "tools" 1
           (Examples.post "{}" ∅) Examples.delete_request
           (World {[ "tools.json" := Content (JObj {[ "id" := JInt 1 ]}) ]} [])).
  intros l. discriminate.
Defined.

Lemma new_record_is_new ev module recs body :
  new_record ev module recs body ∉ recs.
Proof.
  intros Hin.
  destruct (next_free_id_spec (omap int_id recs) 1) as (_ & Hfree & _).
  apply Hfree, list_elem_of_omap. eexists. split; [done|].
  unfold int_id, Py.get. by rewrite new_record_id.
Qed.

(** ** A write that fails *)

(** X19. A create whose write fails is answered 201 with a record that the
    collection does not hold afterwards: the list is the old one, or it is
    empty when the write broke off after the file was opened. *)
Theorem create_with_failed_write_is_not_stored ev module req w recs body :
  stored (file_of module) w = records recs →
  is_create req body →
  env_save ev ≠ SaveOk →
  let r := module_list ev module req w in
  ∃ rec,
    r.1 = Response (JObj rec) 201 ∧
    rec ∉ recs ∧
    (stored (file_of module) r.2 = records recs ∨
     stored (file_of module) r.2 = records []) ∧
    (env_save ev = SaveOpenFails → files r.2 = files w).
Proof.
  intros Hst (Hm & Hdata & Hjson) Hfail r.
  exists (new_record ev module recs body). unfold r.
  rewrite (module_list_create ev module req w recs body Hst)
    by (done || by rewrite Hm).
  cbn [fst snd]. split_and!; [done | apply new_record_is_new | |].
  - destruct (stored_save_fails (env_save ev) (file_of module)
                (records (recs ++ [new_record ev module recs body]))
                (load_json (file_of module) w).2 Hfail) as [-> | ->];
      [left; by rewrite stored_load | by right].
  - intros ->. simpl. apply load_json_files.
Qed.

Lemma create_with_failed_write_is_not_stored_witness :
  let r := module_list Examples.ev_disk_full "tools" (Examples.post "{}" ∅)
             Examples.one_tool in
  ∃ rec,
    r.1 = Response (JObj rec) 201 ∧
    rec ∉ [Examples.tool5] ∧
    (stored (file_of "tools") r.2 = records [Examples.tool5] ∨
     stored (file_of "tools") r.2 = records []) ∧
    (env_save Examples.ev_disk_full = SaveOpenFails →
     files r.2 = files Examples.one_tool).
Proof.
  apply (create_with_failed_write_is_not_stored Examples.ev_disk_full "tools"
           (Examples.post "{}" ∅) Examples.one_tool [Examples.tool5] ∅).
  - reflexivity.
  - unfold is_create. simpl. split_and!; [reflexivity | discriminate | reflexivity].
  - discriminate.
Defined.

(** ** Ids that are not integers *)

(** X20. The id assignment counts [int] instances only, the look-up compares
    with [==]. So when a record has an id that equals the assigned one
    without being counted (a float such as 1.0), the create still answers
    that id, and a fetch of it returns an older record, not the one
    created. *)
Theorem new_id_can_resolve_to_an_older_record
    ev ev' module req get_req w recs body new_id rec :
  stored (file_of module) w = records recs →
  is_create req body →
  env_save ev = SaveOk →
  req_method get_req = GET →
  let created := module_list ev module req w in
  created.1 = Response (JObj rec) 201 →
  rec !! "id" = Some (JInt new_id) →
  id_present new_id recs →
  ∃ old, old ∈ recs ∧ old ≠ rec ∧
         (module_item ev' module new_id get_req created.2).1 =
           Response (JObj old) 200.
Proof.
  intros Hst (Hm & Hdata & Hjson) Hsave Hget created Hresp Hid
    (idx & old & Hfind)%id_present_find.
  assert (created =
          (jsonify_status (JObj (new_record ev module recs body)) 201,
           (save_json (env_save ev) (file_of module)
              (records (recs ++ [new_record ev module recs body]))
              (load_json (file_of module) w).2).2)) as Hc
    by (apply module_list_create; done || by rewrite Hm).
  rewrite Hc in Hresp. cbn [fst] in Hresp. injection Hresp as <-.
  pose proof Hfind as (Hlookup & Hold & Hfirst)%list_find_Some.
  assert (old ∈ recs) as Hin by by eapply list_elem_of_lookup_2.
  exists old. split_and!; [done | |].
  - intros ->. by apply (new_record_is_new ev module recs body).
  - rewrite (module_item_get ev' module get_req created.2 new_id
               (recs ++ [new_record ev module recs body]) idx old);
      [done | | | done].
    + rewrite Hc, Hsave. apply stored_save_ok.
    + apply list_find_Some. split_and!.
      * rewrite lookup_app_l by by eapply lookup_lt_Some. done.
      * done.
      * intros j d Hj Hlt. rewrite lookup_app_l in Hj
          by (apply lookup_lt_Some in Hlookup; lia).
        by eapply Hfirst.
Qed.

Lemma new_id_can_resolve_to_an_older_record_witness :
  let one := JFloat (S754_finite false 4503599627370496 (-52)) in
  let w := World {[ "tools.json" :=
                      Content (records [{[ "id" := one; "name" := JStr "old" ]}]) ]}
             [] in
  let created' := module_list Examples.ev_ok "tools" (Examples.post "{}" ∅) w in
  ∃ old, old ∈ [{[ "id" := one; "name" := JStr "old" ]}] ∧
         old ≠ new_record Examples.ev_ok "tools"
                 [{[ "id" := one; "name" := JStr "old" ]}] ∅ ∧
         (module_item Examples.ev_ok "tools" 1 Examples.get_request created'.2).1 =
           Response (JObj old) 200.
Proof.
  apply (new_id_can_resolve_to_an_older_record Examples.ev_ok Examples.ev_ok
           "tools" (Examples.post "{}" ∅) Examples.get_request
           (World {[ "tools.json" :=
                       Content (records
                                  [{[ "id" := JFloat (S754_finite false
                                                        4503599627370496 (-52));
                                      "name" := JStr "old" ]}]) ]} [])
           [{[ "id" := JFloat (S754_finite false 4503599627370496 (-52));
               "name" := JStr "old" ]}] ∅ 1).
  - reflexivity.
  - unfold is_create. simpl. split_and!; [reflexivity | discriminate | reflexivity].
  - reflexivity.
  - reflexivity.
  - reflexivity.
  - reflexivity.
  - eexists. split; [apply list_elem_of_here | reflexivity].
Defined.

(** ** The shape of a timestamp *)

Lemma decimal_two_digits n :
  (n < 100)%nat → has_shape "dd" (two_digits n) = true.
Proof.
  intros Hn.
  assert (forallb (λ k, has_shape "dd" (two_digits k)) (seq 0 100) = true)
    as Hall by (vm_compute; reflexivity).
  rewrite forallb_forall in Hall. apply Hall, in_seq. lia.
Qed.

Lemma decimal_four_digits n :
  1000 ≤ Z.of_nat n ≤ 9999 → has_shape "dddd" (decimal n) = true.
Proof.
  intros Hn.
  assert (forallb (λ k, has_shape "dddd" (decimal k))
            (seq (Z.to_nat 1000) (Z.to_nat 9000)) = true)
    as Hall by (vm_compute; reflexivity).
  rewrite forallb_forall in Hall. apply Hall, in_seq. lia.
Qed.

Lemma has_shape_app p1 p2 s1 s2 :
  has_shape p1 s1 = true → has_shape p2 s2 = true →
  has_shape (p1 +:+ p2) (s1 +:+ s2) = true.
Proof.
  revert s1. induction p1 as [|p p1 IH]; intros [|c s1]; simpl; try done.
  intros [Hc Hs]%andb_true_iff Hs2. rewrite Hc. simpl. by apply IH.
Qed.

Lemma has_shape_length p s :
  has_shape p s = true → String.length s = String.length p.
Proof.
  revert s. induction p as [|c p IH]; intros [|a s]; simpl; try done.
  intros [_ Hs]%andb_true_iff. f_equal. by apply IH.
Qed.

(** X21. For a time with a four-digit year, [get_timestamp_iso] returns 24
    characters of the shape [dddd-dd-ddTdd:dd:dd.000Z], each d a decimal
    digit: the fields are zero-padded and the milliseconds always 000. *)
Theorem timestamp_has_fixed_shape c :
  four_digit_year (localtime c) →
  has_shape "dddd-dd-ddTdd:dd:dd.000Z" (get_timestamp_iso c) = true ∧
  String.length (get_timestamp_iso c) = 24%nat.
Proof.
  intros (Hy & Hmon & Hday & Hh & Hmin & Hs).
  assert (has_shape "dddd-dd-ddTdd:dd:dd.000Z" (get_timestamp_iso c) = true)
    as Hshape.
  { unfold get_timestamp_iso, strftime_iso.
    change "dddd-dd-ddTdd:dd:dd.000Z"
      with ("dddd" +:+ "-" +:+ "dd" +:+ "-" +:+ "dd" +:+ "T" +:+ "dd" +:+ ":" +:+
            "dd" +:+ ":" +:+ "dd" +:+ ".000Z").
    repeat first
      [ apply decimal_four_digits; lia
      | apply decimal_two_digits; lia
      | reflexivity
      | apply has_shape_app ]. }
  split; [done|]. by rewrite (has_shape_length _ _ Hshape).
Qed.

Lemma timestamp_has_fixed_shape_witness :
  has_shape "dddd-dd-ddTdd:dd:dd.000Z"
    (get_timestamp_iso Examples.clock_plus1) = true ∧
  String.length (get_timestamp_iso Examples.clock_plus1) = 24%nat.
Proof.
  apply (timestamp_has_fixed_shape Examples.clock_plus1).
  unfold four_digit_year. simpl. lia.
Defined.

(** ** Sequences of requests *)

Lemma handle_keeps_collection_ok c w filename :
  collection_ok (stored filename w) →
  collection_ok (stored filename (handle c w).2).
Proof.
  intros Hok. destruct c as [ev module req|ev module item_id req]; simpl.
  - destruct (decide (filename = file_of module)) as [->|Hne];
      [|by rewrite module_list_other_file].
    pose proof Hok as (recs & Hst & Hrecs).
    destruct (module_list_records_writes ev module req w recs Hst)
      as [Hf|[body ->]]; [by rewrite (stored_files _ _ _ Hf)|].
    apply collection_ok_save; [by rewrite stored_load|].
    eexists. split; [done|]. by apply unique_positive_ids_create.
  - destruct (decide (filename = file_of module)) as [->|Hne];
      [|by rewrite module_item_other_file].
    pose proof Hok as (recs & Hst & Hrecs).
    destruct (module_item_records_writes ev module item_id req w recs Hst)
      as [Hf|(idx & d & data & Hfind & -> & Hdata)];
      [by rewrite (stored_files _ _ _ Hf)|].
    apply collection_ok_save; [by rewrite stored_load|].
    exists data. split; [done|]. destruct Hdata as [->|[body ->]].
    + by apply unique_positive_ids_delete.
    + by eapply unique_positive_ids_replace.
Qed.

Lemma run_snoc calls c w : run (calls ++ [c]) w = (handle c (run calls w)).2.
Proof. unfold run. by rewrite foldl_app. Qed.

(** X22. From a data directory in which every collection is a list of records
    with unique positive integer ids (an empty directory is one), every
    sequence of requests, with any bodies and any failures of the writes,
    leads to a data directory of that kind. *)
Theorem every_run_keeps_the_collections_well_formed w calls filename :
  (∀ f, collection_ok (stored f w)) →
  collection_ok (stored filename (run calls w)).
Proof.
  intros Hw. revert filename.
  induction calls as [|c calls IH] using rev_ind; intros filename; [apply Hw|].
  rewrite run_snoc. apply handle_keeps_collection_ok, IH.
Qed.

Lemma every_run_keeps_the_collections_well_formed_witness :
  collection_ok
    (stored "tools.json"
       (run [ListCall Examples.ev_ok "tools" (Examples.post "{}" ∅);
             ItemCall Examples.ev_disk_full "tools" 1 (Examples.put "{}" ∅);
             ListCall Examples.ev_ok "tools" (Request POST "[" (Returns JNull))]
          Examples.no_files)).
Proof.
  apply (every_run_keeps_the_collections_well_formed Examples.no_files).
  intros f. exists []. split; [reflexivity|].
  exists []. split_and!; constructor.
Defined.

(** On collections of records no request ends in the handler for unhandled
    exceptions. *)
Lemma records_never_raise_unhandled c w :
  (∀ f, ∃ recs, stored f w = records recs) →
  (handle c w).1 ≠ internal_error.
Proof.
  intros Hw. destruct c as [ev module req|ev module item_id req]; simpl.
  - destruct (module_list_outcome ev module req w)
      as [[Hm Hr]|[Hm [[Hr|Hr]|[[e Hr]|(rec & items' & _ & Hr)]]]];
      rewrite Hr; cbn [fst]; discriminate.
  - destruct (Hw (file_of module)) as [recs Hst].
    destruct (list_find (has_id item_id) recs) as [[idx d]|] eqn:Hfind;
      [|by rewrite (module_item_absent ev module req w item_id recs)].
    destruct (decide (req_method req = GET)) as [Hget|Hget];
      [by rewrite (module_item_get ev module req w item_id recs idx d)|].
    destruct (decide (req_method req = DELETE)) as [Hdel|Hdel];
      [by rewrite (module_item_delete ev module req w item_id recs idx d)|].
    destruct (module_item_outcome ev module item_id req w)
      as [Hr|[Hr|[[Hm _]|[[Hm _]|
          (_ & _ & [[Hr|Hr]|[[e Hr]|(rec & i & items' & _ & Hr)]])]]]];
      try done; try (rewrite Hr; cbn [fst]; discriminate).
    rewrite (module_item_put_dispatch ev module req w item_id recs idx d)
      in Hr by done.
    unfold module_item_try, get_json in Hr.
    case_decide; [discriminate|].
    destruct (req_get_json req) as [v|e]; [|discriminate].
    destruct v; try discriminate.
    cbn [mbind result_bind Py.setitem] in Hr.
    apply list_find_Some in Hfind as (Hlookup%lookup_lt_Some & _).
    unfold records, Py.setitem_index in Hr.
    rewrite length_fmap, decide_True in Hr by done. discriminate.
Qed.

(** X23. From a data directory in which every collection is a list of records
    with unique positive integer ids, no request of any sequence is answered
    by the handler for unhandled exceptions. *)
Theorem no_run_ends_in_an_unhandled_exception w calls c :
  (∀ f, collection_ok (stored f w)) →
  (handle c (run calls w)).1 ≠ internal_error.
Proof.
  intros Hw. apply records_never_raise_unhandled. intros f.
  assert (collection_ok (stored f (run calls w))) as (recs & Hst & _).
  { clear c. revert f.
    induction calls as [|c calls IH] using rev_ind; intros f; [apply Hw|].
    rewrite run_snoc. apply handle_keeps_collection_ok, IH. }
  by exists recs.
Qed.

Lemma no_run_ends_in_an_unhandled_exception_witness :
  (handle (ItemCall Examples.ev_ok "tools" 1 Examples.get_request)
     (run [ListCall Examples.ev_ok "tools" (Examples.post "{}" ∅)]
        Examples.no_files)).1 ≠ internal_error.
Proof.
  apply (no_run_ends_in_an_unhandled_exception Examples.no_files).
  intros f. exists []. split; [reflexivity|].
  exists []. split_and!; constructor.
Defined.
